(** * plugin-voice-response: the recording / review / conclusion life cycle

    A shallow embedding of [src/index.ts] (class [VoiceResponsePlugin] and the
    detached function [transcribe]).

    The plugin is event driven: the browser calls back into the closures that
    [setupRecordingEvents], [addButtonEvent], [showDisplay] and
    [showPlaybackControls] register.  The embedding keeps the fields of the
    class in a record, adds the part of the browser those closures talk to
    (the MediaRecorder, the host's timers, the pending FileReaders, the
    rendered controls, the object-URL registry) and runs one callback per
    [Event].  A promise continuation ([.then]) runs as a microtask at the end
    of the callback that resolved the promise.

    Conventions of the embedding
    - timestamps ([performance.now()], [event.timeStamp]) are IEEE 754
      doubles, Rocq's primitive floats, and their subtraction is that of
      doubles; [Math.round] follows ECMAScript, negative zero included;
    - a field that JavaScript leaves [undefined] until it is assigned is an
      [option], [None] being [undefined];
    - an uncaught exception ends the callback that raised it and is recorded in
      [uncaught];
    - the MediaRecorder follows the W3C MediaStream Recording rules: [start()]
      on a recorder that is not inactive throws, [stop()] on an inactive
      recorder does nothing, both switch [state] at once and queue the matching
      event;
    - [jsPsych.finishTrial] is that of jsPsych 8: it clears the timeouts set
      through [pluginAPI.setTimeout] and empties the display element;
    - of the stimulus markup only one thing matters: whether it has an
      element with the id [finish-trial], which [addButtonEvent] would find
      before the plugin's own button. *)

From Stdlib Require Import List String Ascii Bool ZArith NArith QArith Qround.
From Stdlib Require Import Qpower.
From Stdlib Require Import Lia Strings.Byte DecimalString.
From Stdlib Require Import Floats.PrimFloat Floats.SpecFloat Floats.FloatOps.
Import ListNotations.

(** ** JavaScript values *)

(** A Number is an IEEE 754 double: Rocq's primitive [float], whose
    subtraction is the hardware's, rounding to nearest, ties to even. *)

(** A timestamp field of the class: [undefined] until a callback assigns it. *)
Inductive Timestamp :=
| Undefined
| At (t : float).

(** The result of [Math.round], an integral Number: [NaN], an infinity,
    negative zero, or an integer. *)
Inductive Millis :=
| MsNaN
| MsInfinity (negative : bool)
| MsNegZero
| Ms (z : Z).

(** [a - b] on two fields; [undefined - x] is [NaN]. *)
Definition js_minus (a b : Timestamp) : float :=
  match a, b with
  | At x, At y => (x - y)%float
  | _, _ => nan
  end.

(** [performance.now() - field]. *)
Definition js_since (now : float) (b : Timestamp) : float :=
  js_minus (At now) b.

(** The real number a finite double stands for. *)
Definition real_of (x : float) : option Q :=
  match Prim2SF x with
  | S754_zero _ => Some 0
  | S754_finite s m e =>
      Some (inject_Z (if s then Zneg m else Zpos m) * 2 ^ e)
  | _ => None
  end.

(** [Math.round] (ECMAScript 21.3.2.28): [NaN], the infinities and the zeros
    are returned as they are; otherwise the result is the integer nearest to
    the exact value of the double, the upper one at a tie, and negative zero
    where that integer is zero and the argument is negative. *)
Definition Math_round (x : float) : Millis :=
  match Prim2SF x with
  | S754_nan => MsNaN
  | S754_infinity s => MsInfinity s
  | S754_zero s => if s then MsNegZero else Ms 0
  | S754_finite s m e =>
      let z :=
        Qfloor (inject_Z (if s then Zneg m else Zpos m) * 2 ^ e + (1 # 2)) in
      if s && (z =? 0)%Z then MsNegZero else Ms z
  end.

(** ** Binary fragments *)

Record Blob := {
  blob_bytes : list byte;
  blob_type : string
}.

Definition blob_size (b : Blob) : nat := List.length (blob_bytes b).

(** [new Blob(parts, { type })]: the bytes of the parts, in order. *)
Definition new_Blob (parts : list Blob) (type : string) : Blob :=
  {| blob_bytes := List.concat (map blob_bytes parts); blob_type := type |}.

(** ** Base64 and data URLs, as the FileReader produces them *)

Module Base64.

(** Six bits, most significant first. *)
Definition sextet : Type := (bool * bool * bool * bool * bool * bool)%type.

Definition sextet_index (s : sextet) : nat :=
  let '(b5, b4, b3, b2, b1, b0) := s in
  (if b5 then 32 else 0) + (if b4 then 16 else 0) + (if b3 then 8 else 0)
  + (if b2 then 4 else 0) + (if b1 then 2 else 0) + (if b0 then 1 else 0).

Definition alphabet : list ascii :=
  list_ascii_of_string
    "ABCDEFGHIJKLMNOPQRSTUVWXYZabcdefghijklmnopqrstuvwxyz0123456789+/".

Definition digit (s : sextet) : ascii :=
  nth (sextet_index s) alphabet "A"%char.

Definition sextets : list sextet :=
  let bs := [false; true] in
  flat_map (fun b5 => flat_map (fun b4 => flat_map (fun b3 =>
  flat_map (fun b2 => flat_map (fun b1 => map (fun b0 =>
    (b5, b4, b3, b2, b1, b0)) bs) bs) bs) bs) bs) bs.

(** The value of a digit: a linear search of the alphabet. *)
Definition value (c : ascii) : option sextet :=
  find (fun s => Ascii.eqb (digit s) c) sextets.

Definition pad : ascii := "="%char.

(** Three bytes make four digits.  [Ascii a0 .. a7] has [a0] as its least
    significant bit. *)
Definition enc3 (x y z : ascii) : list ascii :=
  let '(Ascii x0 x1 x2 x3 x4 x5 x6 x7) := x in
  let '(Ascii y0 y1 y2 y3 y4 y5 y6 y7) := y in
  let '(Ascii z0 z1 z2 z3 z4 z5 z6 z7) := z in
  [ digit (x7, x6, x5, x4, x3, x2);
    digit (x1, x0, y7, y6, y5, y4);
    digit (y3, y2, y1, y0, z7, z6);
    digit (z5, z4, z3, z2, z1, z0) ].

Definition enc2 (x y : ascii) : list ascii :=
  let '(Ascii x0 x1 x2 x3 x4 x5 x6 x7) := x in
  let '(Ascii y0 y1 y2 y3 y4 y5 y6 y7) := y in
  [ digit (x7, x6, x5, x4, x3, x2);
    digit (x1, x0, y7, y6, y5, y4);
    digit (y3, y2, y1, y0, false, false);
    pad ].

Definition enc1 (x : ascii) : list ascii :=
  let '(Ascii x0 x1 x2 x3 x4 x5 x6 x7) := x in
  [ digit (x7, x6, x5, x4, x3, x2);
    digit (x1, x0, false, false, false, false);
    pad; pad ].

Fixpoint encode_ascii (l : list ascii) : list ascii :=
  match l with
  | [] => []
  | [x] => enc1 x
  | [x; y] => enc2 x y
  | x :: y :: z :: rest => enc3 x y z ++ encode_ascii rest
  end.

Definition encode (bytes : list byte) : string :=
  string_of_list_ascii (encode_ascii (map ascii_of_byte bytes)).

(** Decoding one group of four characters; padding shortens the group. *)
Definition dec4 (a b c d : ascii) : option (list ascii) :=
  match value a, value b with
  | Some (a5, a4, a3, a2, a1, a0), Some (b5, b4, b3, b2, b1, b0) =>
      let x := Ascii b4 b5 a0 a1 a2 a3 a4 a5 in
      if Ascii.eqb c pad then
        if Ascii.eqb d pad then Some [x] else None
      else
        match value c with
        | Some (c5, c4, c3, c2, c1, c0) =>
            let y := Ascii c2 c3 c4 c5 b0 b1 b2 b3 in
            if Ascii.eqb d pad then Some [x; y]
            else
              match value d with
              | Some (d5, d4, d3, d2, d1, d0) =>
                  Some [x; y; Ascii d0 d1 d2 d3 d4 d5 c0 c1]
              | None => None
              end
        | None => None
        end
  | _, _ => None
  end.

(** Groups of four; a padded group must be the last one. *)
Fixpoint decode_ascii (l : list ascii) : option (list ascii) :=
  match l with
  | [] => Some []
  | a :: b :: c :: d :: rest =>
      match dec4 a b c d with
      | Some bs =>
          if Ascii.eqb d pad then
            match rest with [] => Some bs | _ :: _ => None end
          else option_map (app bs) (decode_ascii rest)
      | None => None
      end
  | _ => None
  end.

Definition decode (s : string) : option (list byte) :=
  option_map (map byte_of_ascii) (decode_ascii (list_ascii_of_string s)).

End Base64.

(** [FileReader.readAsDataURL]: the result for a blob. *)
Definition dataURL (b : Blob) : string :=
  ("data:" ++ blob_type b ++ ";base64," ++ Base64.encode (blob_bytes b))%string.

(** [String.prototype.split(",")]: the pieces between the commas. *)
Fixpoint split_comma (s : string) : list string :=
  match s with
  | EmptyString => [EmptyString]
  | String c rest =>
      if Ascii.eqb c ","%char then EmptyString :: split_comma rest
      else
        match split_comma rest with
        | [] => [String c EmptyString]
        | piece :: pieces => String c piece :: pieces
        end
  end.

(** No comma among the characters. *)
Definition comma_free_ascii (l : list ascii) : bool :=
  forallb (fun c => negb (Ascii.eqb c ","%char)) l.

Definition comma_free (s : string) : bool :=
  comma_free_ascii (list_ascii_of_string s).

(** [reader.result.split(",")[1]]. *)
Definition base64_of_result (result : string) : option string :=
  nth_error (split_comma result) 1.

(** [`${n}`] for a non-negative integer. *)
Definition decimal (n : N) : string :=
  NilZero.string_of_uint (N.to_uint n).

(** ** Trial configuration: [info.parameters] *)

(** [stimulus_has_finish_trial] is not a parameter.  The stimulus is an HTML
    string that [showDisplay] puts into the page as it is; the field says
    what the browser's parser finds in it, as far as the plugin can tell the
    difference: whether the markup has an element whose id is
    [finish-trial], the id of the plugin's own done button. *)
Record TrialConfig := {
  stimulus : string;
  stimulus_has_finish_trial : bool;
  stimulus_duration : option Z;
  recording_duration : option Z;
  show_done_button : bool;
  done_button_label : string;
  record_again_button_label : string;
  accept_button_label : string;
  allow_playback : bool;
  save_audio_url : bool;
  local_download : bool;
  download_file_name : string
}.

(** The defaults of [info.parameters]; [stimulus] has none.  The stimulus
    given is one without an element of id [finish-trial]. *)
Definition default_config (stim : string) : TrialConfig :=
  {| stimulus := stim;
     stimulus_has_finish_trial := false;
     stimulus_duration := None;
     recording_duration := Some 2000%Z;
     show_done_button := true;
     done_button_label := "Continue";
     record_again_button_label := "Record again";
     accept_button_label := "Continue";
     allow_playback := false;
     save_audio_url := true;
     local_download := false;
     download_file_name := "audio-response" |}.

(** ** The state of a trial *)

(** [URL.createObjectURL] hands out fresh handles. *)
Inductive ObjectURL := BlobURL (n : nat).

(** The two places that call [stopRecording]. *)
Inductive StopPath :=
| ManualStop      (* the click listener of the done button *)
| DeadlineStop.   (* the recording-duration timer *)

(** The promise made by the latest [stopRecording]; [load_resolver] is its
    [resolve].  Earlier promises have lost their resolver for good. *)
Record Promise := {
  made_by : StopPath;
  resolved : bool
}.

(** The three call sites of [endTrial]. *)
Inductive Caller :=
| AfterStop (via : StopPath)   (* the [.then] of a stop wait, no playback *)
| AcceptClick.                 (* the continue button of the playback view *)

(** [trial_data], as passed to [jsPsych.finishTrial]. *)
Record TrialData := {
  td_rt : option Millis;
  td_stimulus : string;
  td_response : option string;
  td_estimated_stimulus_onset : Millis;
  td_audio_url : option ObjectURL
}.

(** The arguments of one call of [transcribe]. *)
Record TranscribeArgs := {
  ta_audio_url : option ObjectURL;
  ta_arrayBuffer : option (list byte);
  ta_data : option Blob
}.

Inductive RecordingState := Inactive | Recording.

(** Events the recorder has queued and not yet fired. *)
Inductive RecorderTask := TaskStart | TaskStop.

(** Host timers set with [jsPsych.pluginAPI.setTimeout]; there is no cancel. *)
Inductive Timer :=
| HideStimulus
| Deadline.

(** The element that [querySelector("#finish-trial")] finds in the page: none,
    or the first one in document order, with or without the click listener
    of [addButtonEvent].  It is the plugin's done button unless the stimulus,
    which comes first in the page, has an element of that id. *)
Inductive DoneButton :=
| NoButton
| Button (wired : bool).

(** What [display_element] holds. *)
Inductive Display :=
| Blank
| StimulusView (visible : bool) (done : DoneButton)
| PlaybackView (src : option ObjectURL).

Inductive Exn :=
| TypeError (what : string)
| InvalidStateError.

Record State := MkState {
  (* fields of the class *)
  stimulus_start_time : Timestamp;
  recorder_start_time : Timestamp;
  audio_url : option ObjectURL;
  response : option string;
  load_resolver : option Promise;
  rt : option Millis;
  recorded_data_chunks : list Blob;
  arrayBuffer : option (list byte);
  data : option Blob;
  (* this.recorder: its state, its queued events, its listeners *)
  recorder_state : RecordingState;
  recorder_tasks : list RecorderTask;
  on_dataavailable : bool;
  on_stop : bool;
  on_start : bool;
  stop_requests : nat;
  (* the browser around the plugin *)
  display : Display;
  timers : list Timer;
  observers : nat;
  data_readers : list Blob;
  buffer_readers : list Blob;
  next_url : nat;
  revoked : list ObjectURL;
  downloads : list (string * ObjectURL);
  microtasks : list StopPath;
  (* what leaves the plugin *)
  uncaught : list Exn;
  finished : list (Caller * TrialData);
  transcribe_calls : list TranscribeArgs
}.

(** Assignments to one field. *)
Definition set_stimulus_start_time (v : Timestamp) (s : State) : State :=
  MkState v (recorder_start_time s) (audio_url s) (response s)
  (load_resolver s) (rt s) (recorded_data_chunks s) (arrayBuffer s) (data s)
  (recorder_state s) (recorder_tasks s) (on_dataavailable s) (on_stop s)
  (on_start s) (stop_requests s) (display s) (timers s) (observers s)
  (data_readers s) (buffer_readers s) (next_url s) (revoked s) (downloads s)
  (microtasks s) (uncaught s) (finished s) (transcribe_calls s).
Definition set_recorder_start_time (v : Timestamp) (s : State) : State :=
  MkState (stimulus_start_time s) v (audio_url s) (response s)
  (load_resolver s) (rt s) (recorded_data_chunks s) (arrayBuffer s) (data s)
  (recorder_state s) (recorder_tasks s) (on_dataavailable s) (on_stop s)
  (on_start s) (stop_requests s) (display s) (timers s) (observers s)
  (data_readers s) (buffer_readers s) (next_url s) (revoked s) (downloads s)
  (microtasks s) (uncaught s) (finished s) (transcribe_calls s).
Definition set_audio_url (v : option ObjectURL) (s : State) : State :=
  MkState (stimulus_start_time s) (recorder_start_time s) v (response s)
  (load_resolver s) (rt s) (recorded_data_chunks s) (arrayBuffer s) (data s)
  (recorder_state s) (recorder_tasks s) (on_dataavailable s) (on_stop s)
  (on_start s) (stop_requests s) (display s) (timers s) (observers s)
  (data_readers s) (buffer_readers s) (next_url s) (revoked s) (downloads s)
  (microtasks s) (uncaught s) (finished s) (transcribe_calls s).
Definition set_response (v : option string) (s : State) : State :=
  MkState (stimulus_start_time s) (recorder_start_time s) (audio_url s) v
  (load_resolver s) (rt s) (recorded_data_chunks s) (arrayBuffer s) (data s)
  (recorder_state s) (recorder_tasks s) (on_dataavailable s) (on_stop s)
  (on_start s) (stop_requests s) (display s) (timers s) (observers s)
  (data_readers s) (buffer_readers s) (next_url s) (revoked s) (downloads s)
  (microtasks s) (uncaught s) (finished s) (transcribe_calls s).
Definition set_load_resolver (v : option Promise) (s : State) : State :=
  MkState (stimulus_start_time s) (recorder_start_time s) (audio_url s)
  (response s) v (rt s) (recorded_data_chunks s) (arrayBuffer s) (data s)
  (recorder_state s) (recorder_tasks s) (on_dataavailable s) (on_stop s)
  (on_start s) (stop_requests s) (display s) (timers s) (observers s)
  (data_readers s) (buffer_readers s) (next_url s) (revoked s) (downloads s)
  (microtasks s) (uncaught s) (finished s) (transcribe_calls s).
Definition set_rt (v : option Millis) (s : State) : State :=
  MkState (stimulus_start_time s) (recorder_start_time s) (audio_url s)
  (response s) (load_resolver s) v (recorded_data_chunks s) (arrayBuffer s)
  (data s) (recorder_state s) (recorder_tasks s) (on_dataavailable s)
  (on_stop s) (on_start s) (stop_requests s) (display s) (timers s)
  (observers s) (data_readers s) (buffer_readers s) (next_url s) (revoked s)
  (downloads s) (microtasks s) (uncaught s) (finished s) (transcribe_calls
  s).
Definition set_recorded_data_chunks (v : list Blob) (s : State) : State :=
  MkState (stimulus_start_time s) (recorder_start_time s) (audio_url s)
  (response s) (load_resolver s) (rt s) v (arrayBuffer s) (data s)
  (recorder_state s) (recorder_tasks s) (on_dataavailable s) (on_stop s)
  (on_start s) (stop_requests s) (display s) (timers s) (observers s)
  (data_readers s) (buffer_readers s) (next_url s) (revoked s) (downloads s)
  (microtasks s) (uncaught s) (finished s) (transcribe_calls s).
Definition set_arrayBuffer (v : option (list byte)) (s : State) : State :=
  MkState (stimulus_start_time s) (recorder_start_time s) (audio_url s)
  (response s) (load_resolver s) (rt s) (recorded_data_chunks s) v (data s)
  (recorder_state s) (recorder_tasks s) (on_dataavailable s) (on_stop s)
  (on_start s) (stop_requests s) (display s) (timers s) (observers s)
  (data_readers s) (buffer_readers s) (next_url s) (revoked s) (downloads s)
  (microtasks s) (uncaught s) (finished s) (transcribe_calls s).
Definition set_data (v : option Blob) (s : State) : State :=
  MkState (stimulus_start_time s) (recorder_start_time s) (audio_url s)
  (response s) (load_resolver s) (rt s) (recorded_data_chunks s)
  (arrayBuffer s) v (recorder_state s) (recorder_tasks s) (on_dataavailable
  s) (on_stop s) (on_start s) (stop_requests s) (display s) (timers s)
  (observers s) (data_readers s) (buffer_readers s) (next_url s) (revoked s)
  (downloads s) (microtasks s) (uncaught s) (finished s) (transcribe_calls
  s).
Definition set_recorder_state (v : RecordingState) (s : State) : State :=
  MkState (stimulus_start_time s) (recorder_start_time s) (audio_url s)
  (response s) (load_resolver s) (rt s) (recorded_data_chunks s)
  (arrayBuffer s) (data s) v (recorder_tasks s) (on_dataavailable s)
  (on_stop s) (on_start s) (stop_requests s) (display s) (timers s)
  (observers s) (data_readers s) (buffer_readers s) (next_url s) (revoked s)
  (downloads s) (microtasks s) (uncaught s) (finished s) (transcribe_calls
  s).
Definition set_recorder_tasks (v : list RecorderTask) (s : State) : State :=
  MkState (stimulus_start_time s) (recorder_start_time s) (audio_url s)
  (response s) (load_resolver s) (rt s) (recorded_data_chunks s)
  (arrayBuffer s) (data s) (recorder_state s) v (on_dataavailable s)
  (on_stop s) (on_start s) (stop_requests s) (display s) (timers s)
  (observers s) (data_readers s) (buffer_readers s) (next_url s) (revoked s)
  (downloads s) (microtasks s) (uncaught s) (finished s) (transcribe_calls
  s).
Definition set_on_dataavailable (v : bool) (s : State) : State :=
  MkState (stimulus_start_time s) (recorder_start_time s) (audio_url s)
  (response s) (load_resolver s) (rt s) (recorded_data_chunks s)
  (arrayBuffer s) (data s) (recorder_state s) (recorder_tasks s) v (on_stop
  s) (on_start s) (stop_requests s) (display s) (timers s) (observers s)
  (data_readers s) (buffer_readers s) (next_url s) (revoked s) (downloads s)
  (microtasks s) (uncaught s) (finished s) (transcribe_calls s).
Definition set_on_stop (v : bool) (s : State) : State :=
  MkState (stimulus_start_time s) (recorder_start_time s) (audio_url s)
  (response s) (load_resolver s) (rt s) (recorded_data_chunks s)
  (arrayBuffer s) (data s) (recorder_state s) (recorder_tasks s)
  (on_dataavailable s) v (on_start s) (stop_requests s) (display s) (timers
  s) (observers s) (data_readers s) (buffer_readers s) (next_url s) (revoked
  s) (downloads s) (microtasks s) (uncaught s) (finished s)
  (transcribe_calls s).
Definition set_on_start (v : bool) (s : State) : State :=
  MkState (stimulus_start_time s) (recorder_start_time s) (audio_url s)
  (response s) (load_resolver s) (rt s) (recorded_data_chunks s)
  (arrayBuffer s) (data s) (recorder_state s) (recorder_tasks s)
  (on_dataavailable s) (on_stop s) v (stop_requests s) (display s) (timers
  s) (observers s) (data_readers s) (buffer_readers s) (next_url s) (revoked
  s) (downloads s) (microtasks s) (uncaught s) (finished s)
  (transcribe_calls s).
Definition set_stop_requests (v : nat) (s : State) : State :=
  MkState (stimulus_start_time s) (recorder_start_time s) (audio_url s)
  (response s) (load_resolver s) (rt s) (recorded_data_chunks s)
  (arrayBuffer s) (data s) (recorder_state s) (recorder_tasks s)
  (on_dataavailable s) (on_stop s) (on_start s) v (display s) (timers s)
  (observers s) (data_readers s) (buffer_readers s) (next_url s) (revoked s)
  (downloads s) (microtasks s) (uncaught s) (finished s) (transcribe_calls
  s).
Definition set_display (v : Display) (s : State) : State :=
  MkState (stimulus_start_time s) (recorder_start_time s) (audio_url s)
  (response s) (load_resolver s) (rt s) (recorded_data_chunks s)
  (arrayBuffer s) (data s) (recorder_state s) (recorder_tasks s)
  (on_dataavailable s) (on_stop s) (on_start s) (stop_requests s) v (timers
  s) (observers s) (data_readers s) (buffer_readers s) (next_url s) (revoked
  s) (downloads s) (microtasks s) (uncaught s) (finished s)
  (transcribe_calls s).
Definition set_timers (v : list Timer) (s : State) : State :=
  MkState (stimulus_start_time s) (recorder_start_time s) (audio_url s)
  (response s) (load_resolver s) (rt s) (recorded_data_chunks s)
  (arrayBuffer s) (data s) (recorder_state s) (recorder_tasks s)
  (on_dataavailable s) (on_stop s) (on_start s) (stop_requests s) (display
  s) v (observers s) (data_readers s) (buffer_readers s) (next_url s)
  (revoked s) (downloads s) (microtasks s) (uncaught s) (finished s)
  (transcribe_calls s).
Definition set_observers (v : nat) (s : State) : State :=
  MkState (stimulus_start_time s) (recorder_start_time s) (audio_url s)
  (response s) (load_resolver s) (rt s) (recorded_data_chunks s)
  (arrayBuffer s) (data s) (recorder_state s) (recorder_tasks s)
  (on_dataavailable s) (on_stop s) (on_start s) (stop_requests s) (display
  s) (timers s) v (data_readers s) (buffer_readers s) (next_url s) (revoked
  s) (downloads s) (microtasks s) (uncaught s) (finished s)
  (transcribe_calls s).
Definition set_data_readers (v : list Blob) (s : State) : State :=
  MkState (stimulus_start_time s) (recorder_start_time s) (audio_url s)
  (response s) (load_resolver s) (rt s) (recorded_data_chunks s)
  (arrayBuffer s) (data s) (recorder_state s) (recorder_tasks s)
  (on_dataavailable s) (on_stop s) (on_start s) (stop_requests s) (display
  s) (timers s) (observers s) v (buffer_readers s) (next_url s) (revoked s)
  (downloads s) (microtasks s) (uncaught s) (finished s) (transcribe_calls
  s).
Definition set_buffer_readers (v : list Blob) (s : State) : State :=
  MkState (stimulus_start_time s) (recorder_start_time s) (audio_url s)
  (response s) (load_resolver s) (rt s) (recorded_data_chunks s)
  (arrayBuffer s) (data s) (recorder_state s) (recorder_tasks s)
  (on_dataavailable s) (on_stop s) (on_start s) (stop_requests s) (display
  s) (timers s) (observers s) (data_readers s) v (next_url s) (revoked s)
  (downloads s) (microtasks s) (uncaught s) (finished s) (transcribe_calls
  s).
Definition set_next_url (v : nat) (s : State) : State :=
  MkState (stimulus_start_time s) (recorder_start_time s) (audio_url s)
  (response s) (load_resolver s) (rt s) (recorded_data_chunks s)
  (arrayBuffer s) (data s) (recorder_state s) (recorder_tasks s)
  (on_dataavailable s) (on_stop s) (on_start s) (stop_requests s) (display
  s) (timers s) (observers s) (data_readers s) (buffer_readers s) v (revoked
  s) (downloads s) (microtasks s) (uncaught s) (finished s)
  (transcribe_calls s).
Definition set_revoked (v : list ObjectURL) (s : State) : State :=
  MkState (stimulus_start_time s) (recorder_start_time s) (audio_url s)
  (response s) (load_resolver s) (rt s) (recorded_data_chunks s)
  (arrayBuffer s) (data s) (recorder_state s) (recorder_tasks s)
  (on_dataavailable s) (on_stop s) (on_start s) (stop_requests s) (display
  s) (timers s) (observers s) (data_readers s) (buffer_readers s) (next_url
  s) v (downloads s) (microtasks s) (uncaught s) (finished s)
  (transcribe_calls s).
Definition set_downloads (v : list (string * ObjectURL)) (s : State) : State :=
  MkState (stimulus_start_time s) (recorder_start_time s) (audio_url s)
  (response s) (load_resolver s) (rt s) (recorded_data_chunks s)
  (arrayBuffer s) (data s) (recorder_state s) (recorder_tasks s)
  (on_dataavailable s) (on_stop s) (on_start s) (stop_requests s) (display
  s) (timers s) (observers s) (data_readers s) (buffer_readers s) (next_url
  s) (revoked s) v (microtasks s) (uncaught s) (finished s)
  (transcribe_calls s).
Definition set_microtasks (v : list StopPath) (s : State) : State :=
  MkState (stimulus_start_time s) (recorder_start_time s) (audio_url s)
  (response s) (load_resolver s) (rt s) (recorded_data_chunks s)
  (arrayBuffer s) (data s) (recorder_state s) (recorder_tasks s)
  (on_dataavailable s) (on_stop s) (on_start s) (stop_requests s) (display
  s) (timers s) (observers s) (data_readers s) (buffer_readers s) (next_url
  s) (revoked s) (downloads s) v (uncaught s) (finished s) (transcribe_calls
  s).
Definition set_uncaught (v : list Exn) (s : State) : State :=
  MkState (stimulus_start_time s) (recorder_start_time s) (audio_url s)
  (response s) (load_resolver s) (rt s) (recorded_data_chunks s)
  (arrayBuffer s) (data s) (recorder_state s) (recorder_tasks s)
  (on_dataavailable s) (on_stop s) (on_start s) (stop_requests s) (display
  s) (timers s) (observers s) (data_readers s) (buffer_readers s) (next_url
  s) (revoked s) (downloads s) (microtasks s) v (finished s)
  (transcribe_calls s).
Definition set_finished (v : list (Caller * TrialData)) (s : State) : State :=
  MkState (stimulus_start_time s) (recorder_start_time s) (audio_url s)
  (response s) (load_resolver s) (rt s) (recorded_data_chunks s)
  (arrayBuffer s) (data s) (recorder_state s) (recorder_tasks s)
  (on_dataavailable s) (on_stop s) (on_start s) (stop_requests s) (display
  s) (timers s) (observers s) (data_readers s) (buffer_readers s) (next_url
  s) (revoked s) (downloads s) (microtasks s) (uncaught s) v
  (transcribe_calls s).
Definition set_transcribe_calls (v : list TranscribeArgs) (s : State) : State :=
  MkState (stimulus_start_time s) (recorder_start_time s) (audio_url s)
  (response s) (load_resolver s) (rt s) (recorded_data_chunks s)
  (arrayBuffer s) (data s) (recorder_state s) (recorder_tasks s)
  (on_dataavailable s) (on_stop s) (on_start s) (stop_requests s) (display
  s) (timers s) (observers s) (data_readers s) (buffer_readers s) (next_url
  s) (revoked s) (downloads s) (microtasks s) (uncaught s) (finished s) v.

(** A callback either completes or throws; the state it had reached stays. *)
Inductive Completion :=
| Normal (s : State)
| Throw (e : Exn) (s : State).

Definition and_then (c : Completion) (k : State -> Completion) : Completion :=
  match c with
  | Normal s => k s
  | Throw e s => Throw e s
  end.

Notation "c >>= k" := (and_then c k) (at level 50, left associativity).

(** A new plugin instance, on an inactive recorder. *)
Definition fresh : State :=
  {| stimulus_start_time := Undefined;
     recorder_start_time := Undefined;
     audio_url := None;
     response := None;
     load_resolver := None;
     rt := None;
     recorded_data_chunks := [];
     arrayBuffer := None;
     data := None;
     recorder_state := Inactive;
     recorder_tasks := [];
     on_dataavailable := false;
     on_stop := false;
     on_start := false;
     stop_requests := 0;
     display := Blank;
     timers := [];
     observers := 0;
     data_readers := [];
     buffer_readers := [];
     next_url := 0;
     revoked := [];
     downloads := [];
     microtasks := [];
     uncaught := [];
     finished := [];
     transcribe_calls := [] |}.

(** ** The browser primitives the plugin calls *)

(** [recorder.start()]. *)
Definition recorder_start (s : State) : Completion :=
  match recorder_state s with
  | Inactive =>
      Normal (set_recorder_tasks (recorder_tasks s ++ [TaskStart])
                (set_recorder_state Recording s))
  | Recording => Throw InvalidStateError s
  end.

(** [recorder.stop()]. *)
Definition recorder_stop (s : State) : State :=
  match recorder_state s with
  | Inactive => s
  | Recording =>
      set_stop_requests (S (stop_requests s))
        (set_recorder_tasks (recorder_tasks s ++ [TaskStop])
           (set_recorder_state Inactive s))
  end.

(** [jsPsych.pluginAPI.setTimeout(callback, duration)]. *)
Definition setTimeout (t : Timer) (s : State) : State :=
  set_timers (timers s ++ [t]) s.

(** [URL.createObjectURL(data)], assigned to [this.audio_url]. *)
Definition createObjectURL (s : State) : State :=
  set_audio_url (Some (BlobURL (next_url s)))
    (set_next_url (S (next_url s)) s).

(** [URL.revokeObjectURL(url)]; does nothing for [undefined]. *)
Definition revokeObjectURL (url : option ObjectURL) (s : State) : State :=
  match url with
  | Some u => set_revoked (revoked s ++ [u]) s
  | None => s
  end.

(** [this.load_resolver()]: resolves the latest promise, whose [.then]
    callback becomes a microtask; a settled promise stays as it is. *)
Definition call_load_resolver (s : State) : Completion :=
  match load_resolver s with
  | None => Throw (TypeError "this.load_resolver is not a function") s
  | Some p =>
      if resolved p then Normal s
      else
        Normal (set_microtasks (microtasks s ++ [made_by p])
                  (set_load_resolver
                     (Some {| made_by := made_by p; resolved := true |}) s))
  end.

(** [jsPsych.finishTrial(trial_data)]: the host takes the outcome and ends
    the trial.  Before it lets any other event through, jsPsych (version 8,
    [cleanupTrial]) clears the timeouts that were set with
    [pluginAPI.setTimeout] and empties the display element. *)
Definition finishTrial (caller : Caller) (td : TrialData) (s : State) : State :=
  set_display Blank
    (set_timers [] (set_finished (finished s ++ [(caller, td)]) s)).

(** ** The methods of the class *)

Section Plugin.

Variable trial : TrialConfig.

(** The page is the stimulus followed, with [show_done_button], by the
    plugin's button: it has an element of id [finish-trial] when either has
    one. *)
Definition showDisplay (s : State) : State :=
  set_display
    (StimulusView true
       (if show_done_button trial || stimulus_has_finish_trial trial
        then Button false else NoButton))
    (set_observers (S (observers s)) s).

Definition hideStimulus (s : State) : State :=
  match display s with
  | StimulusView _ done => set_display (StimulusView false done) s
  | _ => s
  end.

Definition addButtonEvent (s : State) : State :=
  match display s with
  | StimulusView visible (Button _) =>
      set_display (StimulusView visible (Button true)) s
  | _ => s
  end.

Definition startRecording (s : State) : Completion :=
  recorder_start s.

Definition stopRecording (via : StopPath) (s : State) : State :=
  set_load_resolver (Some {| made_by := via; resolved := false |})
    (recorder_stop s).

Definition showPlaybackControls (s : State) : State :=
  set_display (PlaybackView (audio_url s)) s.

(** The object literal built in [endTrial], with [audio_url] when kept. *)
Definition trial_data (s : State) : TrialData :=
  {| td_rt := rt s;
     td_stimulus := stimulus trial;
     td_response := response s;
     td_estimated_stimulus_onset :=
       Math_round (js_minus (stimulus_start_time s) (recorder_start_time s));
     td_audio_url := if save_audio_url trial then audio_url s else None |}.

Definition endTrial (caller : Caller) (s : State) : State :=
  let s1 := set_on_stop false (set_on_start false
              (set_on_dataavailable false s)) in
  let td := trial_data s1 in
  let s2 := if save_audio_url trial then s1
            else revokeObjectURL (audio_url s1) s1 in
  let s3 := finishTrial caller td s2 in
  set_transcribe_calls
    (transcribe_calls s3 ++
       [{| ta_audio_url := td_audio_url td;
           ta_arrayBuffer := arrayBuffer s3;
           ta_data := data s3 |}]) s3.

(** The callback both stop paths pass to [.then]. *)
Definition after_stop (via : StopPath) (s : State) : State :=
  if allow_playback trial then showPlaybackControls s
  else endTrial (AfterStop via) s.

Definition data_available_handler (e_data : Blob) (s : State) : State :=
  if Nat.ltb 0 (blob_size e_data)
  then set_recorded_data_chunks (recorded_data_chunks s ++ [e_data]) s
  else s.

Definition stop_event_handler (date_now : N) (s : State) : Completion :=
  match recorded_data_chunks s with
  | [] => Throw (TypeError "this.recorded_data_chunks[0] is undefined") s
  | first :: _ =>
      let blob := new_Blob (recorded_data_chunks s) (blob_type first) in
      let s := createObjectURL s in
      (if local_download trial then
         let filename :=
           (download_file_name trial ++ "-" ++ decimal date_now ++ ".wav")%string in
         let s := match audio_url s with
                  | Some u => set_downloads (downloads s ++ [(filename, u)]) s
                  | None => s
                  end in
         call_load_resolver (set_response (Some filename) s)
       else Normal s)
      >>= fun s =>
      Normal (set_buffer_readers (buffer_readers s ++ [blob])
                (set_data (Some blob)
                   (set_data_readers (data_readers s ++ [blob]) s)))
  end.

(** The ["load"] listener of the data-URL reader made by the stop handler. *)
Definition reader_load_handler (blob : Blob) (s : State) : Completion :=
  call_load_resolver (set_response (base64_of_result (dataURL blob)) s).

(** [fileReader.onloadend]. *)
Definition buffer_loadend_handler (blob : Blob) (s : State) : State :=
  set_arrayBuffer (Some (blob_bytes blob)) s.

(** The callback of the recording-duration timer. *)
Definition deadline_callback (s : State) : State :=
  match recorder_state s with
  | Inactive => s
  | Recording => stopRecording DeadlineStop s
  end.

Definition start_event_handler (timeStamp : float) (s : State) : State :=
  let s := set_recorded_data_chunks [] s in
  let s := set_recorder_start_time (At timeStamp) s in
  let s := showDisplay s in
  let s := addButtonEvent s in
  let s := match stimulus_duration trial with
           | Some _ => setTimeout HideStimulus s
           | None => s
           end in
  match recording_duration trial with
  | Some _ => setTimeout Deadline s
  | None => s
  end.

(** The callback of the [ResizeObserver] made by [showDisplay]. *)
Definition resize_callback (now : float) (s : State) : State :=
  set_stimulus_start_time (At now) s.

(** The click listener of the done button. *)
Definition done_click (now : float) (s : State) : State :=
  stopRecording ManualStop
    (set_rt (Some (Math_round (js_since now (stimulus_start_time s)))) s).

(** The click listener of the record-again button. *)
Definition record_again_click (s : State) : Completion :=
  startRecording (revokeObjectURL (audio_url s) s).

(** The click listener of the continue button. *)
Definition continue_click (s : State) : State :=
  endTrial AcceptClick s.

Definition setupRecordingEvents (s : State) : State :=
  set_on_start true (set_on_stop true (set_on_dataavailable true s)).

(** [trial(display_element, trial)], the entry point the host calls. *)
Definition trial_entry (s : State) : Completion :=
  startRecording (setupRecordingEvents s).

End Plugin.

(** ** Events and the event loop *)

(** What the browser can deliver to the plugin.  The payloads are the values
    the callback reads from its environment. *)
Inductive Event :=
| DevStart (timeStamp : float) (* the recorder fires "start" *)
| DevData (fragment : Blob)    (* the recorder fires "dataavailable" *)
| DevStop (date_now : N)       (* the recorder fires "stop" *)
| DevEnded                     (* the stream ends: the recorder stops itself *)
| Resize (now : float)         (* a ResizeObserver callback runs *)
| TimerFires (i : nat)            (* the i-th pending host timer expires *)
| ReaderLoad (i : nat)         (* the i-th pending readAsDataURL completes *)
| BufferLoad (i : nat)         (* the i-th pending readAsArrayBuffer completes *)
| ClickDone (now : float)
| ClickRecordAgain
| ClickContinue.

(** The list without its i-th element. *)
Fixpoint remove_nth {A : Type} (i : nat) (l : list A) : list A :=
  match l, i with
  | [], _ => []
  | _ :: rest, O => rest
  | x :: rest, S j => x :: remove_nth j rest
  end.

Section EventLoop.

Variable trial : TrialConfig.

(** The microtask checkpoint after a callback: the [.then] callbacks of the
    promises it resolved. *)
Definition run_microtasks (s : State) : State :=
  fold_left (fun s via => after_stop trial via s) (microtasks s)
    (set_microtasks [] s).

(** One callback: an exception it throws is reported, then microtasks run. *)
Definition settle (c : Completion) : State :=
  run_microtasks
    match c with
    | Normal s => s
    | Throw e s => set_uncaught (uncaught s ++ [e]) s
    end.

(** The recorder may deliver data while it records, and the data gathered
    so far just before it fires "stop". *)
Definition data_enabled (s : State) : bool :=
  match recorder_tasks s, recorder_state s with
  | [], Recording => true
  | TaskStop :: _, _ => true
  | _, _ => false
  end.

(** One event; [None] when the browser cannot deliver it in this state. *)
Definition step (s : State) (e : Event) : option State :=
  match e with
  | DevStart timeStamp =>
      match recorder_tasks s with
      | TaskStart :: rest =>
          let s := set_recorder_tasks rest s in
          Some (settle (Normal (if on_start s
                                then start_event_handler trial timeStamp s
                                else s)))
      | _ => None
      end
  | DevData fragment =>
      if data_enabled s then
        Some (settle (Normal (if on_dataavailable s
                              then data_available_handler fragment s
                              else s)))
      else None
  | DevStop date_now =>
      match recorder_tasks s with
      | TaskStop :: rest =>
          let s := set_recorder_tasks rest s in
          Some (settle (if on_stop s
                        then stop_event_handler trial date_now s
                        else Normal s))
      | _ => None
      end
  | DevEnded =>
      match recorder_state s with
      | Recording =>
          Some (set_recorder_tasks (recorder_tasks s ++ [TaskStop])
                  (set_recorder_state Inactive s))
      | Inactive => None
      end
  | Resize now =>
      match observers s with
      | S n => Some (settle (Normal (resize_callback now
                                       (set_observers n s))))
      | O => None
      end
  | TimerFires i =>
      match nth_error (timers s) i with
      | Some t =>
          let s := set_timers (remove_nth i (timers s)) s in
          Some (settle (Normal match t with
                               | HideStimulus => hideStimulus s
                               | Deadline => deadline_callback s
                               end))
      | None => None
      end
  | ReaderLoad i =>
      match nth_error (data_readers s) i with
      | Some blob =>
          Some (settle (reader_load_handler blob
                          (set_data_readers
                             (remove_nth i (data_readers s)) s)))
      | None => None
      end
  | BufferLoad i =>
      match nth_error (buffer_readers s) i with
      | Some blob =>
          Some (settle (Normal (buffer_loadend_handler blob
                                  (set_buffer_readers
                                     (remove_nth i (buffer_readers s)) s))))
      | None => None
      end
  | ClickDone now =>
      match display s with
      | StimulusView _ (Button wired) =>
          Some (settle (Normal (if wired then done_click now s else s)))
      | _ => None
      end
  | ClickRecordAgain =>
      match display s with
      | PlaybackView _ => Some (settle (record_again_click s))
      | _ => None
      end
  | ClickContinue =>
      match display s with
      | PlaybackView _ => Some (settle (Normal (continue_click trial s)))
      | _ => None
      end
  end.

(** A sequence of events, from a given state. *)
Fixpoint run_from (s : State) (events : list Event) : option State :=
  match events with
  | [] => Some s
  | e :: rest =>
      match step s e with
      | Some s' => run_from s' rest
      | None => None
      end
  end.

(** The state the host's call of [trial] leaves behind. *)
Definition started : State := settle (trial_entry fresh).

(** A trial: the host calls [trial], then the browser delivers events. *)
Definition run (events : list Event) : option State :=
  run_from started events.

(** The Trial Outcomes handed to [jsPsych.finishTrial] so far. *)
Definition outcomes (s : State) : list TrialData := map snd (finished s).

End EventLoop.

(** ** The detached function [transcribe] *)

Module Transcription.

(** What an awaited call comes back with: a value, or a rejection. *)
Inductive Result (A : Type) :=
| Ok (a : A)
| Failed (reason : string).
Arguments Ok {A} a.
Arguments Failed {A} reason.

(** The first argument of the engine call. *)
Inductive AudioSource :=
| FromAddress (url : string)        (* a URL given as a string *)
| FromBytes (bytes : list byte).    (* a typed array *)

Record Options := {
  return_timestamps : string
}.

(** The three asynchronous collaborators, each of which may fail. *)
Record Services := {
  pipeline : string -> string -> Result unit;
  fetch_arrayBuffer : option ObjectURL -> Result (list byte);
  transcriber : AudioSource -> Options -> Result string
}.

(** Everything one run of [transcribe] does. *)
Record Dispatch := {
  fetched : list (option ObjectURL);
  engine_calls : list (AudioSource * Options);
  console : list string;
  settled : Result unit     (* the promise [transcribe] returned *)
}.

Definition wav : string :=
  "http://localhost:8000/examples/audio-response-1747257891581.wav".

(** The body has no [try]: the first rejected [await] rejects the promise of
    the async function and the statements after it do not run. *)
Definition transcribe (sv : Services) (audio_url : option ObjectURL)
    (arrayBuffer : option (list byte)) (data : option Blob) : Dispatch :=
  match pipeline sv "automatic-speech-recognition" "Xenova/whisper-tiny.en" with
  | Failed r =>
      {| fetched := []; engine_calls := []; console := [];
         settled := Failed r |}
  | Ok _ =>
      match fetch_arrayBuffer sv audio_url with
      | Failed r =>
          {| fetched := [audio_url]; engine_calls := []; console := [];
             settled := Failed r |}
      | Ok dataArrayBuffer =>
          let options := {| return_timestamps := "word" |} in
          match transcriber sv (FromAddress wav) options with
          | Failed r =>
              {| fetched := [audio_url];
                 engine_calls := [(FromAddress wav, options)];
                 console := [];
                 settled := Failed r |}
          | Ok output =>
              {| fetched := [audio_url];
                 engine_calls := [(FromAddress wav, options)];
                 console := [output];
                 settled := Ok tt |}
          end
      end
  end.

(** The run that a recorded call of [transcribe] stands for. *)
Definition dispatch (sv : Services) (call : TranscribeArgs) : Dispatch :=
  transcribe sv (ta_audio_url call) (ta_arrayBuffer call) (ta_data call).

End Transcription.

(** ** Vocabulary of the statements *)

Definition is_playback (d : Display) : bool :=
  match d with
  | PlaybackView _ => true
  | _ => false
  end.




(** [x < 0] on the result of [Math.round]: false for both zeros and for
    [NaN]. *)
Definition is_negative (x : Millis) : bool :=
  match x with
  | Ms z => (z <? 0)%Z
  | MsInfinity negative => negative
  | MsNegZero | MsNaN => false
  end.

(** The clock reading an event carries ([event.timeStamp] or
    [performance.now()] in its callback). *)
Definition reading (e : Event) : option float :=
  match e with
  | DevStart t | Resize t | ClickDone t => Some t
  | _ => None
  end.

(** The clock readings of the sequence never go back. *)
Fixpoint chronological_from (last : float) (events : list Event) : bool :=
  match events with
  | [] => true
  | e :: rest =>
      match reading e with
      | Some t => (last <=? t)%float && chronological_from t rest
      | None => chronological_from last rest
      end
  end.

Definition chronological (events : list Event) : bool :=
  chronological_from 0 events.

(** The non-empty fragments delivered since the latest "start" event. *)
Fixpoint fragments_after (acc : list Blob) (events : list Event) : list Blob :=
  match events with
  | [] => acc
  | DevStart _ :: rest => fragments_after [] rest
  | DevData b :: rest =>
      fragments_after (if Nat.ltb 0 (blob_size b) then acc ++ [b] else acc) rest
  | _ :: rest => fragments_after acc rest
  end.

(** The timestamp of the latest "start" event. *)
Fixpoint armed_after (acc : Timestamp) (events : list Event) : Timestamp :=
  match events with
  | [] => acc
  | DevStart timeStamp :: rest => armed_after (At timeStamp) rest
  | _ :: rest => armed_after acc rest
  end.

(** Every "dataavailable" event of the sequence carries an empty blob. *)
Definition all_silent (events : list Event) : bool :=
  forallb (fun e => match e with
                    | DevData b => Nat.eqb (blob_size b) 0
                    | _ => true
                    end) events.

(** What the stop handler throws when it reads [recorded_data_chunks[0].type]
    on an empty sequence, and what a call of an unset [load_resolver] throws. *)
Definition no_first_fragment : Exn :=
  TypeError "this.recorded_data_chunks[0] is undefined".

Definition no_resolver : Exn :=
  TypeError "this.load_resolver is not a function".

(** The state a callback had reached when it completed or threw. *)
Definition reached (c : Completion) : State :=
  match c with
  | Normal s => s
  | Throw _ s => s
  end.

(** The view offers nothing to click. *)
Definition no_controls (d : Display) : bool :=
  match d with
  | Blank | StimulusView _ NoButton => true
  | _ => false
  end.

Definition is_hide (t : Timer) : bool :=
  match t with
  | HideStimulus => true
  | Deadline => false
  end.





(** ** Vocabulary of the further properties *)

(** The three events the recorder fires at its listeners. *)
Definition is_recorder_event (e : Event) : bool :=
  match e with
  | DevStart _ | DevData _ | DevStop _ => true
  | _ => false
  end.

Definition is_done_click (e : Event) : bool :=
  match e with
  | ClickDone _ => true
  | _ => false
  end.

Definition is_start (e : Event) : bool :=
  match e with
  | DevStart _ => true
  | _ => false
  end.

Definition is_resize (e : Event) : bool :=
  match e with
  | Resize _ => true
  | _ => false
  end.

(** No event of the sequence is of the given kind. *)
Definition never (kind : Event -> bool) (events : list Event) : bool :=
  forallb (fun e => negb (kind e)) events.

Definition has_done_button (d : Display) : bool :=
  match d with
  | StimulusView _ (Button _) => true
  | _ => false
  end.

Definition stimulus_hidden (d : Display) : bool :=
  match d with
  | StimulusView false _ => true
  | _ => false
  end.

(** The name the stop handler gives the downloaded file. *)
Definition file_name (trial : TrialConfig) (date_now : N) : string :=
  (download_file_name trial ++ "-" ++ decimal date_now ++ ".wav")%string.

(** The call [transcribe(trial_data.audio_url, this.arrayBuffer, this.data)]
    made from a given state. *)
Definition transcribe_call (trial : TrialConfig) (s : State) : TranscribeArgs :=
  {| ta_audio_url := td_audio_url (trial_data trial s);
     ta_arrayBuffer := arrayBuffer s;
     ta_data := data s |}.

(** An outcome of a trial without playback review agrees with the way the
    trial was stopped: a reaction time after the done button, none after the
    deadline. *)
Definition path_agrees (entry : Caller * TrialData) : Prop :=
  match fst entry with
  | AfterStop ManualStop => td_rt (snd entry) <> None
  | AfterStop DeadlineStop => td_rt (snd entry) = None
  | AcceptClick => False
  end.

(** What holds in every state of a trial without playback review: there is
    one recording attempt, it is stopped at most once, and the path of the
    latest stop wait tells whether the done button has been clicked. *)
Definition single_attempt (s : State) : Prop :=
  microtasks s = []
  /\ is_playback (display s) = false
  /\ match recorder_state s with
     | Recording =>
         stop_requests s = 0%nat /\ rt s = None /\ load_resolver s = None
     | Inactive => (stop_requests s <= 1)%nat
     end
  /\ match load_resolver s with
     | None => True
     | Some p =>
         match made_by p with
         | ManualStop => rt s <> None
         | DeadlineStop => rt s = None
         end
     end
  /\ Forall path_agrees (finished s).

(** [trial] has run and the recorder has not fired "start" yet: nothing is
    rendered, armed, observed, read or recorded, and "start" is the next
    event of the recorder. *)
Definition awaiting_start (s : State) : Prop :=
  display s = Blank /\ timers s = [] /\ observers s = 0%nat
  /\ data_readers s = [] /\ buffer_readers s = []
  /\ load_resolver s = None /\ finished s = []
  /\ recorded_data_chunks s = []
  /\ stimulus_start_time s = Undefined /\ recorder_start_time s = Undefined
  /\ hd_error (recorder_tasks s) = Some TaskStart.

(** The stop handler comes first: as long as no handle has been created no
    reader is pending and the playback view is not rendered; the playback
    view is not rendered before a response has been assigned either, and it
    never plays an undefined address. *)
Definition artifact_first (s : State) : Prop :=
  match response s, audio_url s with
  | Some _, Some _ => display s <> PlaybackView None
  | None, Some _ => is_playback (display s) = false
  | _, None => is_playback (display s) = false /\ data_readers s = []
  end.

Definition is_ended (e : Event) : bool :=
  match e with
  | DevEnded => true
  | _ => false
  end.

Definition is_start_task (t : RecorderTask) : bool :=
  match t with
  | TaskStart => true
  | TaskStop => false
  end.

(** [load_resolver] is set before anything can call it: while it is
    [undefined], no reader is pending and the recorder has no "stop" to
    fire. *)
Definition resolver_ready (s : State) : Prop :=
  match load_resolver s with
  | Some _ => True
  | None =>
      data_readers s = []
      /\ forallb is_start_task (recorder_tasks s) = true
  end.

(** How many events of a sequence are of the given kind. *)
Definition count (kind : Event -> bool) (events : list Event) : nat :=
  List.length (filter kind events).

(** ** Concrete trials *)

Module Scenario.

Definition opus : string := "audio/webm;codecs=opus".

Definition take1 : Blob :=
  {| blob_bytes := ["M"%byte; "a"%byte; "n"%byte]; blob_type := opus |}.

Definition take2 : Blob :=
  {| blob_bytes := ["H"%byte; "i"%byte]; blob_type := opus |}.

Definition silence : Blob := {| blob_bytes := []; blob_type := opus |}.

(** A fragment of a recorder whose content type lists two codecs. *)
Definition two_codecs : Blob :=
  {| blob_bytes := ["M"%byte; "a"%byte; "n"%byte];
     blob_type := "audio/webm;codecs=opus,pcm" |}.

Definition defaults : TrialConfig := default_config "<p>Say it</p>".

(** Playback review on, everything else by default. *)
Definition with_playback : TrialConfig :=
  {| stimulus := stimulus defaults;
     stimulus_has_finish_trial := stimulus_has_finish_trial defaults;
     stimulus_duration := stimulus_duration defaults;
     recording_duration := recording_duration defaults;
     show_done_button := show_done_button defaults;
     done_button_label := done_button_label defaults;
     record_again_button_label := record_again_button_label defaults;
     accept_button_label := accept_button_label defaults;
     allow_playback := true;
     save_audio_url := save_audio_url defaults;
     local_download := local_download defaults;
     download_file_name := download_file_name defaults |}.

(** Playback review and local download. *)
Definition with_playback_and_download : TrialConfig :=
  {| stimulus := stimulus defaults;
     stimulus_has_finish_trial := stimulus_has_finish_trial defaults;
     stimulus_duration := stimulus_duration defaults;
     recording_duration := recording_duration defaults;
     show_done_button := show_done_button defaults;
     done_button_label := done_button_label defaults;
     record_again_button_label := record_again_button_label defaults;
     accept_button_label := accept_button_label defaults;
     allow_playback := true;
     save_audio_url := save_audio_url defaults;
     local_download := true;
     download_file_name := download_file_name defaults |}.

(** No deadline and no done button. *)
Definition unattended : TrialConfig :=
  {| stimulus := stimulus defaults;
     stimulus_has_finish_trial := stimulus_has_finish_trial defaults;
     stimulus_duration := Some 500%Z;
     recording_duration := None;
     show_done_button := false;
     done_button_label := done_button_label defaults;
     record_again_button_label := record_again_button_label defaults;
     accept_button_label := accept_button_label defaults;
     allow_playback := allow_playback defaults;
     save_audio_url := save_audio_url defaults;
     local_download := local_download defaults;
     download_file_name := download_file_name defaults |}.

(** No deadline and no done button either, but the stimulus has a button of
    its own, with the id the plugin looks for. *)
Definition own_button : TrialConfig :=
  {| stimulus := "<p>Say it</p><button id='finish-trial'>Stop</button>";
     stimulus_has_finish_trial := true;
     stimulus_duration := stimulus_duration defaults;
     recording_duration := None;
     show_done_button := false;
     done_button_label := done_button_label defaults;
     record_again_button_label := record_again_button_label defaults;
     accept_button_label := accept_button_label defaults;
     allow_playback := allow_playback defaults;
     save_audio_url := save_audio_url defaults;
     local_download := local_download defaults;
     download_file_name := download_file_name defaults |}.

(** The done button is clicked 500 ms after the stimulus was seen; the
    recorder hands over its data and is about to fire "stop". *)
Definition before_stop : list Event :=
  [ DevStart 0; Resize 10; ClickDone 510; DevData take1 ].

(** The same attempt up to the playback view (or, without playback, up to
    the conclusion). *)
Definition first_take : list Event :=
  before_stop ++ [DevStop 1747257891581; ReaderLoad 0].

(** The stimulus is seen 50 ms after the recorder reported its start. *)
Definition seen_50ms_late : list Event :=
  [ DevStart 100; Resize 150; ClickDone 700; DevData take1;
    DevStop 1747257891581 ].

(** A scripted participant: the first take is seen at 10 ms and ended at
    once, and the second take starts a quarter of a millisecond after the
    first was seen; it is ended and accepted before its own observer has
    reported.  The clock readings are in order. *)
Definition hasty_second_take : list Event :=
  [ DevStart 0; Resize 10; ClickDone 10.125; DevData take1;
    DevStop 1747257891581; ReaderLoad 0; ClickRecordAgain; DevStart 10.25;
    ClickDone 10.375; DevData take2; DevStop 1747257896200; ReaderLoad 0;
    ClickContinue ].

(** The participant accepts once. *)
Definition accept_once : list Event :=
  first_take ++ [ClickContinue].

(** Done at 510 ms, "record again" at 1000 ms: the second recording is
    running while the first attempt's 2000 ms timer is still pending. *)
Definition second_take_running : list Event :=
  first_take ++ [ClickRecordAgain; DevStart 1000; Resize 1010].

(** The first timer expires at 2000 ms (the recorder is inactive), "record
    again" at 2500 ms, the second attempt runs into its own deadline at
    4500 ms and is played back. *)
Definition second_take_reviewed : list Event :=
  first_take ++
  [ TimerFires 0; ClickRecordAgain; DevStart 2500; Resize 2510; TimerFires 0;
    DevData take2; DevStop 1747257896200; ReaderLoad 0 ].

(** The same, accepted. *)
Definition second_take_timed_out : list Event :=
  second_take_reviewed ++ [ClickContinue].

(** A device that only ever reports empty data, stopped by the deadline. *)
Definition silent_before_stop : list Event :=
  [ DevStart 0; Resize 10; DevData silence; TimerFires 0; DevData silence ].

Definition silent_device : list Event :=
  silent_before_stop ++ [DevStop 1747257891581].

(** One fragment with two codecs in its type, stopped by the done button. *)
Definition two_codec_take : list Event :=
  [ DevStart 0; Resize 10; ClickDone 510; DevData two_codecs;
    DevStop 1747257891581; ReaderLoad 0 ].

(** An unattended trial: stimulus hidden, data delivered, stream ended. *)
Definition left_alone : list Event :=
  [ DevStart 0; Resize 10; TimerFires 0; DevData take1; DevEnded;
    DevData take2; DevStop 1747257891581; ReaderLoad 0; BufferLoad 0 ].

(** Services in which every stage succeeds, and in which the engine cannot
    be loaded. *)
Definition all_fine : Transcription.Services :=
  {| Transcription.pipeline := fun _ _ => Transcription.Ok tt;
     Transcription.fetch_arrayBuffer :=
       fun _ => Transcription.Ok (blob_bytes take1);
     Transcription.transcriber := fun _ _ => Transcription.Ok "man"%string |}.

Definition engine_down : Transcription.Services :=
  {| Transcription.pipeline :=
       fun _ _ => Transcription.Failed "engine unavailable";
     Transcription.fetch_arrayBuffer :=
       fun _ => Transcription.Ok (blob_bytes take1);
     Transcription.transcriber := fun _ _ => Transcription.Ok "man"%string |}.

Definition fetch_down : Transcription.Services :=
  {| Transcription.pipeline := fun _ _ => Transcription.Ok tt;
     Transcription.fetch_arrayBuffer :=
       fun _ => Transcription.Failed "fetch failed";
     Transcription.transcriber := fun _ _ => Transcription.Ok "man"%string |}.

End Scenario.

(** ** Further concrete trials *)

Module Session.

(** Local download on, everything else by default (no playback review). *)
Definition with_download : TrialConfig :=
  {| stimulus := stimulus Scenario.defaults;
     stimulus_has_finish_trial :=
       stimulus_has_finish_trial Scenario.defaults;
     stimulus_duration := stimulus_duration Scenario.defaults;
     recording_duration := recording_duration Scenario.defaults;
     show_done_button := show_done_button Scenario.defaults;
     done_button_label := done_button_label Scenario.defaults;
     record_again_button_label := record_again_button_label Scenario.defaults;
     accept_button_label := accept_button_label Scenario.defaults;
     allow_playback := allow_playback Scenario.defaults;
     save_audio_url := save_audio_url Scenario.defaults;
     local_download := true;
     download_file_name := download_file_name Scenario.defaults |}.

(** The handle is not to be kept. *)
Definition without_url : TrialConfig :=
  {| stimulus := stimulus Scenario.defaults;
     stimulus_has_finish_trial :=
       stimulus_has_finish_trial Scenario.defaults;
     stimulus_duration := stimulus_duration Scenario.defaults;
     recording_duration := recording_duration Scenario.defaults;
     show_done_button := show_done_button Scenario.defaults;
     done_button_label := done_button_label Scenario.defaults;
     record_again_button_label := record_again_button_label Scenario.defaults;
     accept_button_label := accept_button_label Scenario.defaults;
     allow_playback := allow_playback Scenario.defaults;
     save_audio_url := false;
     local_download := local_download Scenario.defaults;
     download_file_name := download_file_name Scenario.defaults |}.

(** No done button; the deadline of 2000 ms stays. *)
Definition no_button : TrialConfig :=
  {| stimulus := stimulus Scenario.defaults;
     stimulus_has_finish_trial :=
       stimulus_has_finish_trial Scenario.defaults;
     stimulus_duration := stimulus_duration Scenario.defaults;
     recording_duration := recording_duration Scenario.defaults;
     show_done_button := false;
     done_button_label := done_button_label Scenario.defaults;
     record_again_button_label := record_again_button_label Scenario.defaults;
     accept_button_label := accept_button_label Scenario.defaults;
     allow_playback := allow_playback Scenario.defaults;
     save_audio_url := save_audio_url Scenario.defaults;
     local_download := local_download Scenario.defaults;
     download_file_name := download_file_name Scenario.defaults |}.

(** No deadline; the done button stays. *)
Definition no_deadline : TrialConfig :=
  {| stimulus := stimulus Scenario.defaults;
     stimulus_has_finish_trial :=
       stimulus_has_finish_trial Scenario.defaults;
     stimulus_duration := stimulus_duration Scenario.defaults;
     recording_duration := None;
     show_done_button := show_done_button Scenario.defaults;
     done_button_label := done_button_label Scenario.defaults;
     record_again_button_label := record_again_button_label Scenario.defaults;
     accept_button_label := accept_button_label Scenario.defaults;
     allow_playback := allow_playback Scenario.defaults;
     save_audio_url := save_audio_url Scenario.defaults;
     local_download := local_download Scenario.defaults;
     download_file_name := download_file_name Scenario.defaults |}.

(** Nobody clicks: the deadline stops the recording and the reader's load
    concludes the trial. *)
Definition timed_out : list Event :=
  [ DevStart 0; Resize 10; TimerFires 0; DevData Scenario.take1;
    DevStop 1747257891581; ReaderLoad 0 ].

(** With playback review: two takes, each ended by its deadline, the second
    accepted. *)
Definition two_takes_timed_out : list Event :=
  timed_out ++
  [ ClickRecordAgain; DevStart 2500; Resize 2510; TimerFires 0;
    DevData Scenario.take2; DevStop 1747257896200; ReaderLoad 0;
    ClickContinue ].

(** The done button is clicked before any ResizeObserver callback has run. *)
Definition unobserved : list Event :=
  [ DevStart 0; ClickDone 510; DevData Scenario.take1;
    DevStop 1747257891581; ReaderLoad 0 ].

(** The stimulus is on screen and the recording runs. *)
Definition recording : list Event := [ DevStart 0; Resize 10 ].

(** An empty fragment, then one with data. *)
Definition mixed_fragments : list Event :=
  recording ++ [ DevData Scenario.silence; DevData Scenario.take1 ].

(** The participant asks for another take and accepts the first one before
    the recorder has fired the "start" of the second. *)
Definition accepted_while_restarting : list Event :=
  Scenario.first_take ++ [ ClickRecordAgain; ClickContinue ].

(** The stream ends before the recorder has fired "start". *)
Definition ended_early : list Event := [ DevEnded ].

End Session.

(** * Properties *)

(** ** Base64 and the data URL *)

Example base64_Man :
  Base64.encode ["M"%byte; "a"%byte; "n"%byte] = "TWFu"%string
  /\ Base64.encode ["M"%byte; "a"%byte] = "TWE="%string
  /\ Base64.encode ["M"%byte] = "TQ=="%string
  /\ Base64.decode "TWE=" = Some ["M"%byte; "a"%byte].
Proof. repeat split; reflexivity. Qed.

Example split_example :
  split_comma "data:audio/webm;base64,TWFu" = ["data:audio/webm;base64"; "TWFu"]%string
  /\ decimal 1747257891581 = "1747257891581"%string.
Proof. split; reflexivity. Qed.

Module Base64Facts.
Import Base64.

Lemma value_digit (s : sextet) : value (digit s) = Some s.
Proof.
  destruct s as [[[[[b5 b4] b3] b2] b1] b0].
  destruct b5, b4, b3, b2, b1, b0; reflexivity.
Qed.

Lemma digit_is_not_pad (s : sextet) : Ascii.eqb (digit s) pad = false.
Proof.
  destruct s as [[[[[b5 b4] b3] b2] b1] b0].
  destruct b5, b4, b3, b2, b1, b0; reflexivity.
Qed.

Lemma digit_is_not_comma (s : sextet) : Ascii.eqb (digit s) ","%char = false.
Proof.
  destruct s as [[[[[b5 b4] b3] b2] b1] b0].
  destruct b5, b4, b3, b2, b1, b0; reflexivity.
Qed.

Lemma dec4_enc3 (x y z : ascii) :
  match enc3 x y z with
  | [a; b; c; d] => dec4 a b c d = Some [x; y; z] /\ Ascii.eqb d pad = false
  | _ => False
  end.
Proof.
  destruct x, y, z; unfold enc3, dec4.
  rewrite !value_digit, !digit_is_not_pad. split; reflexivity.
Qed.

Lemma dec4_enc2 (x y : ascii) :
  match enc2 x y with
  | [a; b; c; d] => dec4 a b c d = Some [x; y] /\ Ascii.eqb d pad = true
  | _ => False
  end.
Proof.
  destruct x, y; unfold enc2, dec4.
  rewrite !value_digit, !digit_is_not_pad. split; reflexivity.
Qed.

Lemma dec4_enc1 (x : ascii) :
  match enc1 x with
  | [a; b; c; d] => dec4 a b c d = Some [x] /\ Ascii.eqb d pad = true
  | _ => False
  end.
Proof.
  destruct x; unfold enc1, dec4.
  rewrite !value_digit. split; reflexivity.
Qed.

(** Induction three elements at a time, the way [encode_ascii] recurses. *)
Lemma by_triples (P : list ascii -> Prop) :
  P [] -> (forall x, P [x]) -> (forall x y, P [x; y]) ->
  (forall x y z rest, P rest -> P (x :: y :: z :: rest)) ->
  forall l, P l.
Proof.
  intros H0 H1 H2 H3.
  assert (Hall : forall l, P l /\ (forall x, P (x :: l))
                           /\ (forall x y, P (x :: y :: l))).
  { induction l as [|a l [IH0 [IH1 IH2]]].
    - repeat split; auto.
    - repeat split; auto. }
  intro l. apply Hall.
Qed.

Lemma decode_encode_ascii (l : list ascii) :
  decode_ascii (encode_ascii l) = Some l.
Proof.
  induction l as [|x|x y|x y z rest IH] using by_triples.
  - reflexivity.
  - cbn [encode_ascii]. pose proof (dec4_enc1 x) as H.
    destruct (enc1 x) as [|a [|b [|c [|d [|? ?]]]]]; try contradiction.
    destruct H as [H1 H2]. cbn [decode_ascii]. now rewrite H1, H2.
  - cbn [encode_ascii]. pose proof (dec4_enc2 x y) as H.
    destruct (enc2 x y) as [|a [|b [|c [|d [|? ?]]]]]; try contradiction.
    destruct H as [H1 H2]. cbn [decode_ascii]. now rewrite H1, H2.
  - cbn [encode_ascii]. pose proof (dec4_enc3 x y z) as H.
    destruct (enc3 x y z) as [|a [|b [|c [|d [|? ?]]]]]; try contradiction.
    destruct H as [H1 H2]. cbn [decode_ascii app].
    rewrite H1, H2, IH. reflexivity.
Qed.

(** The round trip on bytes. *)
Lemma decode_encode (bytes : list byte) :
  decode (encode bytes) = Some bytes.
Proof.
  unfold decode, encode.
  rewrite list_ascii_of_string_of_list_ascii, decode_encode_ascii.
  cbn [option_map]. f_equal.
  rewrite map_map. rewrite <- (map_id bytes) at 2.
  apply map_ext. intro b. apply byte_of_ascii_of_byte.
Qed.

Lemma encode_ascii_comma_free (l : list ascii) :
  comma_free_ascii (encode_ascii l) = true.
Proof.
  induction l as [|x|x y|x y z rest IH] using by_triples.
  - reflexivity.
  - destruct x. cbn [encode_ascii enc1 comma_free_ascii forallb].
    now rewrite !digit_is_not_comma.
  - destruct x, y. cbn [encode_ascii enc2 comma_free_ascii forallb].
    now rewrite !digit_is_not_comma.
  - cbn [encode_ascii]. unfold comma_free_ascii in *.
    rewrite forallb_app, IH. destruct x, y, z. cbn [enc3 forallb].
    now rewrite !digit_is_not_comma.
Qed.

End Base64Facts.

(** ** Splitting the reader's result *)

Lemma split_comma_nonempty (s : string) : split_comma s <> [].
Proof.
  destruct s as [|c s]; cbn [split_comma]; [discriminate|].
  destruct (Ascii.eqb c ","); [discriminate|].
  destruct (split_comma s); discriminate.
Qed.

Lemma split_comma_free (s : string) :
  comma_free s = true -> split_comma s = [s].
Proof.
  unfold comma_free, comma_free_ascii.
  induction s as [|c s IH]; cbn [list_ascii_of_string forallb split_comma];
    [reflexivity|].
  intro H. apply andb_true_iff in H as [Hc Hs].
  apply negb_true_iff in Hc. rewrite Hc, (IH Hs). reflexivity.
Qed.

Lemma split_comma_prefix (p q : string) :
  comma_free p = true ->
  split_comma (p ++ q) =
    match split_comma q with
    | piece :: pieces => (p ++ piece)%string :: pieces
    | [] => [p]
    end.
Proof.
  unfold comma_free, comma_free_ascii.
  induction p as [|c p IH]; cbn [list_ascii_of_string forallb append].
  - intros _. destruct (split_comma q) eqn:E; [|reflexivity].
    now apply split_comma_nonempty in E.
  - intro H. apply andb_true_iff in H as [Hc Hp].
    apply negb_true_iff in Hc. cbn [split_comma]. rewrite Hc, (IH Hp).
    destruct (split_comma q); reflexivity.
Qed.

Lemma encode_comma_free (bytes : list byte) :
  comma_free (Base64.encode bytes) = true.
Proof.
  unfold comma_free, Base64.encode.
  rewrite list_ascii_of_string_of_list_ascii.
  apply Base64Facts.encode_ascii_comma_free.
Qed.

(** With a comma-free content type, the second piece of the data URL is the
    base64 text. *)
Lemma base64_of_dataURL (b : Blob) :
  comma_free (blob_type b) = true ->
  base64_of_result (dataURL b) = Some (Base64.encode (blob_bytes b)).
Proof.
  intro Hty. unfold base64_of_result, dataURL.
  rewrite (split_comma_prefix "data:" _ eq_refl).
  rewrite (split_comma_prefix (blob_type b) _ Hty).
  cbn [append split_comma Ascii.eqb Bool.eqb].
  rewrite (split_comma_free _ (encode_comma_free (blob_bytes b))).
  reflexivity.
Qed.

(** ** One event at a time *)

(** The callbacks are run symbolically on a state whose fields are variables:
    a callback is unfolded, each test it makes is evaluated or split on, and
    the state is written out field by field before its microtasks run. *)

(** Unfolding the callbacks, keeping the field assignments folded. *)
Ltac open_callbacks :=
  lazy beta iota zeta delta
    [ settle run_microtasks after_stop start_event_handler stop_event_handler
      data_available_handler reader_load_handler buffer_loadend_handler
      deadline_callback resize_callback done_click record_again_click
      continue_click endTrial finishTrial showPlaybackControls stopRecording
      startRecording addButtonEvent hideStimulus showDisplay
      call_load_resolver revokeObjectURL createObjectURL setTimeout
      recorder_stop recorder_start and_then setupRecordingEvents trial_entry ].

(** Reading fields through the assignments: a state built by assignments
    from a state given field by field becomes a state given field by field. *)
Ltac read_fields :=
  lazy beta iota zeta delta
    [ stimulus_start_time recorder_start_time audio_url response load_resolver
      rt recorded_data_chunks arrayBuffer data recorder_state recorder_tasks
      on_dataavailable on_stop on_start stop_requests display timers observers
      data_readers buffer_readers next_url revoked downloads microtasks
      uncaught finished transcribe_calls stimulus stimulus_has_finish_trial
      stimulus_duration recording_duration show_done_button done_button_label
      record_again_button_label accept_button_label allow_playback
      save_audio_url local_download download_file_name set_stimulus_start_time
      set_recorder_start_time set_audio_url set_response set_load_resolver
      set_rt set_recorded_data_chunks set_arrayBuffer set_data
      set_recorder_state set_recorder_tasks set_on_dataavailable set_on_stop
      set_on_start set_stop_requests set_display set_timers set_observers
      set_data_readers set_buffer_readers set_next_url set_revoked
      set_downloads set_microtasks set_uncaught set_finished
      set_transcribe_calls trial_data made_by resolved td_rt td_stimulus
      td_response td_estimated_stimulus_onset td_audio_url ta_audio_url
      ta_arrayBuffer ta_data fst snd reached settle run_microtasks after_stop
      start_event_handler stop_event_handler data_available_handler
      reader_load_handler buffer_loadend_handler deadline_callback
      resize_callback done_click record_again_click continue_click endTrial
      finishTrial showPlaybackControls stopRecording startRecording
      addButtonEvent hideStimulus showDisplay call_load_resolver
      revokeObjectURL createObjectURL setTimeout recorder_stop recorder_start
      and_then setupRecordingEvents trial_entry ].

Ltac read_fields_in H :=
  lazy beta iota zeta delta
    [ stimulus_start_time recorder_start_time audio_url response load_resolver
      rt recorded_data_chunks arrayBuffer data recorder_state recorder_tasks
      on_dataavailable on_stop on_start stop_requests display timers observers
      data_readers buffer_readers next_url revoked downloads microtasks
      uncaught finished transcribe_calls stimulus stimulus_has_finish_trial
      stimulus_duration recording_duration show_done_button done_button_label
      record_again_button_label accept_button_label allow_playback
      save_audio_url local_download download_file_name set_stimulus_start_time
      set_recorder_start_time set_audio_url set_response set_load_resolver
      set_rt set_recorded_data_chunks set_arrayBuffer set_data
      set_recorder_state set_recorder_tasks set_on_dataavailable set_on_stop
      set_on_start set_stop_requests set_display set_timers set_observers
      set_data_readers set_buffer_readers set_next_url set_revoked
      set_downloads set_microtasks set_uncaught set_finished
      set_transcribe_calls trial_data made_by resolved td_rt td_stimulus
      td_response td_estimated_stimulus_onset td_audio_url ta_audio_url
      ta_arrayBuffer ta_data fst snd reached settle run_microtasks after_stop
      start_event_handler stop_event_handler data_available_handler
      reader_load_handler buffer_loadend_handler deadline_callback
      resize_callback done_click record_again_click continue_click endTrial
      finishTrial showPlaybackControls stopRecording startRecording
      addButtonEvent hideStimulus showDisplay call_load_resolver
      revokeObjectURL createObjectURL setTimeout recorder_stop recorder_start
      and_then setupRecordingEvents trial_entry ] in H.

Ltac innermost x :=
  lazymatch x with
  | context [match _ with _ => _ end] => fail
  | _ => idtac
  end.

(** Evaluate a test as far as the state allows; split on it when stuck. *)
Ltac decide_test x :=
  let x' := eval lazy beta iota zeta delta
    [ app orb stimulus_start_time recorder_start_time audio_url response
      load_resolver rt recorded_data_chunks arrayBuffer data recorder_state
      recorder_tasks on_dataavailable on_stop on_start stop_requests display
      timers observers data_readers buffer_readers next_url revoked downloads
      microtasks uncaught finished transcribe_calls stimulus
      stimulus_has_finish_trial stimulus_duration recording_duration
      show_done_button done_button_label record_again_button_label
      accept_button_label allow_playback save_audio_url local_download
      download_file_name set_stimulus_start_time set_recorder_start_time
      set_audio_url set_response set_load_resolver set_rt
      set_recorded_data_chunks set_arrayBuffer set_data set_recorder_state
      set_recorder_tasks set_on_dataavailable set_on_stop set_on_start
      set_stop_requests set_display set_timers set_observers set_data_readers
      set_buffer_readers set_next_url set_revoked set_downloads set_microtasks
      set_uncaught set_finished set_transcribe_calls trial_data made_by
      resolved td_rt td_stimulus td_response td_estimated_stimulus_onset
      td_audio_url ta_audio_url ta_arrayBuffer ta_data fst snd reached ] in x in
  tryif constr_eq x x' then destruct x else change x with x'.

(** The microtask checkpoint: evaluate the queue, write the state out, and
    run the one queued continuation, if any. *)
Ltac drain_microtasks :=
  match goal with
  | |- context [fold_left ?f ?l ?a] =>
      innermost l;
      lazymatch l with
      | [] => change (fold_left f l a) with a
      | [?v] =>
          let a' := eval lazy beta iota zeta delta
            [ stimulus_start_time recorder_start_time audio_url response
              load_resolver rt recorded_data_chunks arrayBuffer data
              recorder_state recorder_tasks on_dataavailable on_stop on_start
              stop_requests display timers observers data_readers
              buffer_readers next_url revoked downloads microtasks uncaught
              finished transcribe_calls stimulus stimulus_has_finish_trial
              stimulus_duration recording_duration show_done_button
              done_button_label record_again_button_label accept_button_label
              allow_playback save_audio_url local_download download_file_name
              set_stimulus_start_time set_recorder_start_time set_audio_url
              set_response set_load_resolver set_rt set_recorded_data_chunks
              set_arrayBuffer set_data set_recorder_state set_recorder_tasks
              set_on_dataavailable set_on_stop set_on_start set_stop_requests
              set_display set_timers set_observers set_data_readers
              set_buffer_readers set_next_url set_revoked set_downloads
              set_microtasks set_uncaught set_finished set_transcribe_calls
              trial_data made_by resolved td_rt td_stimulus td_response
              td_estimated_stimulus_onset td_audio_url ta_audio_url
              ta_arrayBuffer ta_data fst snd reached ] in a in
          change (fold_left f l a) with (f a' v)
      | _ =>
          let l' := eval lazy beta iota zeta delta
            [ app stimulus_start_time recorder_start_time audio_url response
              load_resolver rt recorded_data_chunks arrayBuffer data
              recorder_state recorder_tasks on_dataavailable on_stop on_start
              stop_requests display timers observers data_readers
              buffer_readers next_url revoked downloads microtasks uncaught
              finished transcribe_calls stimulus stimulus_has_finish_trial
              stimulus_duration recording_duration show_done_button
              done_button_label record_again_button_label accept_button_label
              allow_playback save_audio_url local_download download_file_name
              set_stimulus_start_time set_recorder_start_time set_audio_url
              set_response set_load_resolver set_rt set_recorded_data_chunks
              set_arrayBuffer set_data set_recorder_state set_recorder_tasks
              set_on_dataavailable set_on_stop set_on_start set_stop_requests
              set_display set_timers set_observers set_data_readers
              set_buffer_readers set_next_url set_revoked set_downloads
              set_microtasks set_uncaught set_finished set_transcribe_calls
              trial_data made_by resolved td_rt td_stimulus td_response
              td_estimated_stimulus_onset td_audio_url ta_audio_url
              ta_arrayBuffer ta_data fst snd reached ] in l in
          progress change l with l'
      end
  end.

(** Symbolic execution of one callback and its microtasks. *)
Ltac exec :=
  repeat first
    [ progress open_callbacks
    | match goal with
      | |- context [match ?x with _ => _ end] => innermost x; decide_test x
      end
    | drain_microtasks ].

(** Evaluate the test that decides whether the browser can deliver the
    event, and leave it in the hypothesis. *)
Ltac enabling_test H :=
  unfold step, data_enabled in H;
  match type of H with
  | match ?x with _ => _ end = Some _ =>
      let x' := eval lazy beta iota zeta delta
        [ stimulus_start_time recorder_start_time audio_url response
          load_resolver rt recorded_data_chunks arrayBuffer data
          recorder_state recorder_tasks on_dataavailable on_stop on_start
          stop_requests display timers observers data_readers buffer_readers
          next_url revoked downloads microtasks uncaught finished
          transcribe_calls stimulus stimulus_has_finish_trial
          stimulus_duration recording_duration show_done_button
          done_button_label record_again_button_label accept_button_label
          allow_playback save_audio_url local_download download_file_name
          set_stimulus_start_time set_recorder_start_time set_audio_url
          set_response set_load_resolver set_rt set_recorded_data_chunks
          set_arrayBuffer set_data set_recorder_state set_recorder_tasks
          set_on_dataavailable set_on_stop set_on_start set_stop_requests
          set_display set_timers set_observers set_data_readers
          set_buffer_readers set_next_url set_revoked set_downloads
          set_microtasks set_uncaught set_finished set_transcribe_calls
          trial_data made_by resolved td_rt td_stimulus td_response
          td_estimated_stimulus_onset td_audio_url ta_audio_url ta_arrayBuffer
          ta_data fst snd reached ] in x in
      change x with x' in H
  end.

(** Split on the tests that decide whether the browser can deliver the event,
    keeping what each test found, and name the resulting state. *)
Ltac enabled H :=
  unfold step, data_enabled in H;
  repeat match type of H with
         | match ?x with _ => _ end = Some _ =>
             let x' := eval lazy beta iota zeta delta
               [ stimulus_start_time recorder_start_time audio_url response
                 load_resolver rt recorded_data_chunks arrayBuffer data
                 recorder_state recorder_tasks on_dataavailable on_stop
                 on_start stop_requests display timers observers data_readers
                 buffer_readers next_url revoked downloads microtasks uncaught
                 finished transcribe_calls stimulus stimulus_has_finish_trial
                 stimulus_duration recording_duration show_done_button
                 done_button_label record_again_button_label
                 accept_button_label allow_playback save_audio_url
                 local_download download_file_name set_stimulus_start_time
                 set_recorder_start_time set_audio_url set_response
                 set_load_resolver set_rt set_recorded_data_chunks
                 set_arrayBuffer set_data set_recorder_state
                 set_recorder_tasks set_on_dataavailable set_on_stop
                 set_on_start set_stop_requests set_display set_timers
                 set_observers set_data_readers set_buffer_readers
                 set_next_url set_revoked set_downloads set_microtasks
                 set_uncaught set_finished set_transcribe_calls trial_data
                 made_by resolved td_rt td_stimulus td_response
                 td_estimated_stimulus_onset td_audio_url ta_audio_url
                 ta_arrayBuffer ta_data fst snd reached ] in x in
             change x with x' in H; revert H; destruct x' eqn:?; intro H;
             try discriminate
         end;
  injection H as <-; subst.

(** A step leaves no microtask behind, hands over at most one outcome, and
    that outcome is [trial_data] of the state the step ends in; the events
    that conclude do not touch the timing fields. *)
Lemma step_outcome cfg s e s' :
  microtasks s = [] -> step cfg s e = Some s' ->
  microtasks s' = [] /\
  (finished s' = finished s \/
   exists caller,
     finished s' = finished s ++ [(caller, trial_data cfg s')] /\
     rt s' = rt s /\
     recorder_start_time s' = recorder_start_time s /\
     stimulus_start_time s' = stimulus_start_time s).
Proof.
  intros Hm H. destruct s, cfg. read_fields_in Hm. subst.
  destruct e; enabled H; exec; read_fields.
  all: split; [reflexivity|].
  all: try (left; reflexivity).
  all: right; eexists; (split; [reflexivity|]); (split; [reflexivity|]);
    split; reflexivity.
Qed.

Lemma started_microtasks cfg : microtasks (started cfg) = [].
Proof. reflexivity. Qed.

Lemma run_from_microtasks cfg events : forall s s',
  microtasks s = [] -> run_from cfg s events = Some s' -> microtasks s' = [].
Proof.
  induction events as [|e rest IH]; intros s s' Hm H; cbn in H.
  - now injection H as <-.
  - destruct (step cfg s e) as [s1|] eqn:E; [|discriminate].
    apply (IH s1 s'); [|exact H]. now apply (step_outcome cfg s e s1).
Qed.

Lemma run_microtasks_empty cfg events s :
  run cfg events = Some s -> microtasks s = [].
Proof. apply run_from_microtasks. reflexivity. Qed.

(** A run is its first part followed by its last event. *)
Lemma run_from_snoc cfg events e : forall s,
  run_from cfg s (events ++ [e]) =
    match run_from cfg s events with
    | Some s1 => step cfg s1 e
    | None => None
    end.
Proof.
  induction events as [|x rest IH]; intro s; cbn.
  - now destruct (step cfg s e).
  - destruct (step cfg s x); [apply IH | reflexivity].
Qed.

(** ** What a concluding step does *)

(** A step either leaves the outcomes, the transcription calls, the
    listeners and (but for "record again") the released handles as they are,
    or it concludes: it hands over [trial_data] of the state it ends in,
    calls [transcribe] once with the handle of that outcome, unregisters the
    three listeners and releases the handle unless it is to be kept.  With
    playback review only the accept click concludes.  Without local download
    no step triggers a download. *)
Lemma step_conclusion cfg s e s' :
  microtasks s = [] -> step cfg s e = Some s' ->
  (local_download cfg = false -> downloads s' = downloads s)
  /\ ((finished s' = finished s
       /\ transcribe_calls s' = transcribe_calls s
       /\ on_dataavailable s' = on_dataavailable s
       /\ on_stop s' = on_stop s
       /\ on_start s' = on_start s
       /\ (revoked s' = revoked s \/ e = ClickRecordAgain))
      \/ (exists caller,
            finished s' = finished s ++ [(caller, trial_data cfg s')]
            /\ transcribe_calls s' =
                 transcribe_calls s ++ [transcribe_call cfg s']
            /\ on_dataavailable s' = false
            /\ on_stop s' = false
            /\ on_start s' = false
            /\ (allow_playback cfg = true -> caller = AcceptClick)
            /\ revoked s' =
                 if save_audio_url cfg then revoked s
                 else match audio_url s' with
                      | Some u => revoked s ++ [u]
                      | None => revoked s
                      end)).
Proof.
  intros Hm H. unfold transcribe_call. destruct s, cfg.
  read_fields_in Hm. subst.
  destruct e; enabled H; exec; read_fields.
  all: split; [intro Hd; try discriminate Hd; reflexivity|].
  all: first
    [ left; repeat split; first [reflexivity | left; reflexivity
                                 | right; reflexivity]
    | right; eexists; split; [reflexivity|]; repeat split;
      try reflexivity; intro Hap; try discriminate Hap; reflexivity ].
Qed.

(** ** Invariants of runs *)

(** The state [trial] leaves behind: the listeners are registered, the
    recorder records and has its "start" event queued, and nothing else has
    happened. *)
Lemma started_fields cfg :
  started cfg =
    set_recorder_tasks [TaskStart]
      (set_recorder_state Recording
         (set_on_start true
            (set_on_stop true (set_on_dataavailable true fresh)))).
Proof. unfold started, fresh. exec; read_fields; reflexivity. Qed.

(** What the state after [trial] has and every step keeps, every run has. *)
Lemma run_invariant cfg (P : State -> Prop) :
  P (started cfg) ->
  (forall s e s', microtasks s = [] -> P s -> step cfg s e = Some s' -> P s') ->
  forall events s, run cfg events = Some s -> P s.
Proof.
  intros H0 Hstep events.
  assert (Hgen : forall s0 s, microtasks s0 = [] -> P s0 ->
                   run_from cfg s0 events = Some s -> P s).
  { induction events as [|e rest IH]; intros s0 s Hm HP H; cbn in H.
    - now injection H as <-.
    - destruct (step cfg s0 e) as [s1|] eqn:E; [|discriminate].
      apply (IH s1 s); [|eauto|exact H].
      now apply (step_outcome cfg s0 e s1). }
  intros s H. apply (Hgen (started cfg) s); auto using started_microtasks.
Qed.

(** ** Rounding *)

Lemma round_fifty (q : Q) : q == 50 -> Qfloor (q + (1 # 2)) = 50%Z.
Proof. intro H. now rewrite H. Qed.

Lemma round_not_negative (q : Q) : 0 <= q -> (0 <= Qfloor (q + (1 # 2)))%Z.
Proof.
  intro H. change 0%Z with (Qfloor 0).
  apply Qfloor_resp_le. apply Qle_trans with q; [exact H|].
  rewrite <- (Qplus_0_r q) at 1. apply Qplus_le_r. discriminate.
Qed.

Lemma round_negative (q : Q) : q < - (1 # 2) -> (Qfloor (q + (1 # 2)) < 0)%Z.
Proof.
  intro H. rewrite Zlt_Qlt.
  apply Qle_lt_trans with (q + (1 # 2)); [apply Qfloor_le|].
  setoid_replace (inject_Z 0) with (- (1 # 2) + (1 # 2)) by reflexivity.
  now apply Qplus_lt_l.
Qed.

Lemma round_to_zero (q : Q) :
  - (1 # 2) <= q -> q < 1 # 2 -> Qfloor (q + (1 # 2)) = 0%Z.
Proof.
  intros Hlow Hhigh.
  assert (H0 : 0 <= q + (1 # 2)).
  { setoid_replace 0 with (- (1 # 2) + (1 # 2)) by reflexivity.
    now apply Qplus_le_l. }
  assert (H1 : q + (1 # 2) < 1).
  { setoid_replace 1 with ((1 # 2) + (1 # 2)) by reflexivity.
    now apply Qplus_lt_l. }
  pose proof (Qfloor_le (q + (1 # 2))) as Hle.
  pose proof (Qlt_floor (q + (1 # 2))) as Hlt.
  assert (Ha : (Qfloor (q + (1 # 2)) < 1)%Z).
  { rewrite Zlt_Qlt. eapply Qle_lt_trans; eauto. }
  assert (Hb : (0 < Qfloor (q + (1 # 2)) + 1)%Z).
  { rewrite Zlt_Qlt. eapply Qle_lt_trans; eauto. }
  lia.
Qed.

(** The sign bit of a finite double is the sign of its value. *)
Lemma positive_double (m : positive) (e : Z) : 0 < inject_Z (Zpos m) * 2 ^ e.
Proof.
  apply Qmult_lt_0_compat; [reflexivity|]. now apply Qpower_0_lt.
Qed.

Lemma negative_double (m : positive) (e : Z) : inject_Z (Zneg m) * 2 ^ e < 0.
Proof.
  change (inject_Z (Zneg m)) with (- inject_Z (Zpos m)).
  setoid_replace (- inject_Z (Zpos m) * 2 ^ e)
    with (- (inject_Z (Zpos m) * 2 ^ e)) by ring.
  change 0 with (- 0). apply Qopp_lt_compat. apply positive_double.
Qed.

(** [Math.round] in terms of the value of its argument. *)
Lemma Math_round_of_real (x : float) (q : Q) :
  real_of x = Some q ->
  (q == 50 -> Math_round x = Ms 50)
  /\ (0 < q -> exists z, Math_round x = Ms z /\ (0 <= z)%Z)
  /\ (q < 0 -> - (1 # 2) <= q -> Math_round x = MsNegZero)
  /\ (q < - (1 # 2) -> exists z, Math_round x = Ms z /\ (z < 0)%Z)
  /\ (forall z, Math_round x = Ms z -> z = Qfloor (q + (1 # 2))).
Proof.
  unfold real_of, Math_round.
  destruct (Prim2SF x) as [s | s | | s m e]; try discriminate;
    intro H; injection H as <-.
  - split; [intro H; discriminate H|].
    split; [intro H; discriminate H|].
    split; [intro H; discriminate H|].
    split; [intro H; discriminate H|].
    intros z Hz. destruct s; [discriminate|]. now injection Hz as <-.
  - cbv zeta. destruct s; cbn [andb].
    + pose proof (negative_double m e) as Hneg.
      split; [intro H; rewrite H in Hneg; discriminate Hneg|].
      split; [intro H; exfalso; apply (Qlt_irrefl 0);
              eapply Qlt_trans; eauto|].
      split; [intros _ Hlow; rewrite round_to_zero;
              [reflexivity | exact Hlow
              | eapply Qlt_trans; [exact Hneg | reflexivity]]|].
      split.
      * intro H. pose proof (round_negative _ H) as Hz.
        destruct (Z.eqb_spec (Qfloor (inject_Z (Zneg m) * 2 ^ e + (1 # 2))) 0)
          as [E|E]; [lia|]. eexists. split; [reflexivity | exact Hz].
      * intros z Hz.
        destruct (Qfloor (inject_Z (Zneg m) * 2 ^ e + (1 # 2)) =? 0)%Z;
          [discriminate | now injection Hz as <-].
    + pose proof (positive_double m e) as Hpos.
      split; [intro H; f_equal; now apply round_fifty|].
      split; [intros _; eexists; split;
              [reflexivity | apply round_not_negative; now apply Qlt_le_weak]|].
      split; [intro H; exfalso; apply (Qlt_irrefl 0);
              eapply Qlt_trans; eauto|].
      split; [intro H; exfalso; apply (Qlt_irrefl 0);
              eapply Qlt_trans; [exact Hpos|];
              eapply Qlt_trans; [exact H | reflexivity]|].
      intros z Hz. now injection Hz as <-.
Qed.

(** Subtraction is that of doubles: the difference is rounded to the nearest
    double before [Math.round] sees it. *)
#[warnings="-inexact-float"] Lemma Math_round_of_double_differences :
  Math_round (js_since 10456.9 (At 3253.4)) = Ms 7204
  /\ Math_round (js_minus (At 100.8) (At 0.3)) = Ms 101
  /\ Math_round (js_minus (At 0.3) (At 0.8)) = MsNegZero
  /\ Math_round (js_minus (At 150) (At 100)) = Ms 50
  /\ Math_round (js_minus (At 2.5) (At 0)) = Ms 3
  /\ Math_round (js_minus (At 0) (At 2.5)) = Ms (-2)
  /\ Math_round (js_minus Undefined (At 0)) = MsNaN.
Proof. repeat split; vm_compute; reflexivity. Qed.

(** ** C7: the estimated stimulus onset *)

(** C7 (as amended).  In every run, the outcome a step hands to the host has
    [estimated_stimulus_onset = Math.round(stimulus_start_time -
    recorder_start_time)], the subtraction being that of doubles, read from
    the fields at that step.  When both timestamps are set and their
    difference is a finite double of value [q]: the outcome is 50 when [q] is
    50, a non-negative integer when [q] is positive, [-0] when
    [-1/2 <= q < 0], a negative integer when [q < -1/2], and whenever it is
    an integer it is [floor (q + 1/2)]. *)
Theorem C7_estimated_stimulus_onset :
  forall cfg events s e s' caller td,
    run cfg events = Some s ->
    step cfg s e = Some s' ->
    finished s' = finished s ++ [(caller, td)] ->
    td_estimated_stimulus_onset td =
      Math_round (js_minus (stimulus_start_time s) (recorder_start_time s))
    /\ forall visible armed q,
         stimulus_start_time s = At visible ->
         recorder_start_time s = At armed ->
         real_of (visible - armed)%float = Some q ->
         (q == 50 -> td_estimated_stimulus_onset td = Ms 50)
         /\ (0 < q ->
             exists z, td_estimated_stimulus_onset td = Ms z /\ (0 <= z)%Z)
         /\ (q < 0 -> - (1 # 2) <= q ->
             td_estimated_stimulus_onset td = MsNegZero)
         /\ (q < - (1 # 2) ->
             exists z, td_estimated_stimulus_onset td = Ms z /\ (z < 0)%Z)
         /\ (forall z, td_estimated_stimulus_onset td = Ms z ->
                       z = Qfloor (q + (1 # 2))).
Proof.
  intros cfg events s e s' caller td Hrun Hstep Hfin.
  assert (Hm : microtasks s = []) by (eapply run_microtasks_empty; eauto).
  destruct (step_outcome cfg s e s' Hm Hstep)
    as [_ [Hsame | [c [Hout [_ [Hrec Hstim]]]]]].
  - rewrite Hsame in Hfin. apply (f_equal (@List.length _)) in Hfin.
    rewrite length_app in Hfin. cbn in Hfin. lia.
  - rewrite Hout in Hfin. apply app_inv_head in Hfin.
    injection Hfin as _ <-.
    assert (Heq : td_estimated_stimulus_onset (trial_data cfg s') =
                  Math_round (js_minus (stimulus_start_time s)
                                (recorder_start_time s))).
    { unfold trial_data. cbn. now rewrite Hrec, Hstim. }
    split; [exact Heq|].
    intros visible armed q Hv Ha Hq. rewrite Heq, Hv, Ha.
    cbn [js_minus]. now apply Math_round_of_real.
Qed.

(** The 50 ms scenario of the specification, through the theorem: the stimulus
    is observed at 150 ms, the recorder reported its start at 100 ms. *)
Lemma C7_witness :
  exists s s' td,
    run Scenario.defaults Scenario.seen_50ms_late = Some s
    /\ step Scenario.defaults s (ReaderLoad 0) = Some s'
    /\ finished s' = finished s ++ [(AfterStop ManualStop, td)]
    /\ td_estimated_stimulus_onset td = Ms 50.
Proof.
  eexists _, _, _.
  split; [vm_compute; reflexivity|].
  split; [vm_compute; reflexivity|].
  split; [vm_compute; reflexivity|].
  match goal with
  | |- td_estimated_stimulus_onset ?td = _ =>
      destruct (C7_estimated_stimulus_onset
                  Scenario.defaults Scenario.seen_50ms_late _ (ReaderLoad 0) _
                  (AfterStop ManualStop) td
                  ltac:(vm_compute; reflexivity)
                  ltac:(vm_compute; reflexivity)
                  ltac:(vm_compute; reflexivity)) as [_ H]
  end.
  edestruct (H 150%float 100%float _ eq_refl eq_refl
               ltac:(vm_compute; reflexivity)) as [H50 _].
  apply H50. reflexivity.
Defined.

(** C7, the claim as stated, fails.  The events below are in the order of
    their clock readings.  The second attempt starts a quarter of a
    millisecond after the stimulus of the first was observed, and it is
    stopped and accepted before its own observer has run: the recording
    started after the stimulus was visible, and the outcome carries [-0]
    ([Math.round(10 - 10.25)]), which is not negative. *)
Lemma C7_counterexample :
  exists s,
    chronological Scenario.hasty_second_take = true
    /\ run Scenario.with_playback Scenario.hasty_second_take = Some s
    /\ stimulus_start_time s = At 10
    /\ recorder_start_time s = At 10.25
    /\ (10 <? 10.25)%float = true
    /\ map td_estimated_stimulus_onset (outcomes s) = [MsNegZero]
    /\ is_negative MsNegZero = false.
Proof.
  eexists. split; [vm_compute; reflexivity|].
  split; [vm_compute; reflexivity|].
  repeat split; vm_compute; reflexivity.
Qed.

(** ** Fragments and the recorder's start time *)

(** Only "start" and "dataavailable" touch the fragment sequence and the
    recorder's start time, through their listeners; and the listeners stay
    registered as long as a step does not conclude the trial. *)
Lemma step_fragments cfg s e s' :
  microtasks s = [] -> step cfg s e = Some s' ->
  recorded_data_chunks s' =
    match e with
    | DevStart _ => if on_start s then [] else recorded_data_chunks s
    | DevData b =>
        if on_dataavailable s then
          if Nat.ltb 0 (blob_size b) then recorded_data_chunks s ++ [b]
          else recorded_data_chunks s
        else recorded_data_chunks s
    | _ => recorded_data_chunks s
    end
  /\ recorder_start_time s' =
       match e with
       | DevStart timeStamp =>
           if on_start s then At timeStamp else recorder_start_time s
       | _ => recorder_start_time s
       end
  /\ ((on_start s' = on_start s /\ on_dataavailable s' = on_dataavailable s
       /\ on_stop s' = on_stop s /\ finished s' = finished s)
      \/ exists outcome, finished s' = finished s ++ [outcome]).
Proof.
  intros Hm H. destruct s, cfg. read_fields_in Hm. subst.
  destruct e; enabled H; exec; read_fields.
  all: split; [reflexivity|]; split; [reflexivity|].
  all: first [ left; repeat split; reflexivity
             | right; eexists; reflexivity ].
Qed.

(** ** C10: the content type of the first fragment *)

Lemma silent_run_keeps_no_fragment cfg events : forall s s',
  microtasks s = [] -> recorded_data_chunks s = [] ->
  all_silent events = true ->
  run_from cfg s events = Some s' -> recorded_data_chunks s' = [].
Proof.
  induction events as [|e rest IH]; intros s s' Hm Hc Hsilent H; cbn in H.
  - now injection H as <-.
  - destruct (step cfg s e) as [s1|] eqn:E; [|discriminate].
    cbn in Hsilent. apply andb_true_iff in Hsilent as [He Hrest].
    apply (IH s1 s'); [|  |exact Hrest|exact H].
    + now apply (step_outcome cfg s e s1).
    + destruct (step_fragments cfg s e s1 Hm E) as [Hch _].
      rewrite Hch, Hc. destruct e; try reflexivity.
      * now destruct (on_start s).
      * apply Nat.eqb_eq in He. rewrite He. now destruct (on_dataavailable s).
Qed.

(** C10.  The stop handler reads the content type of the first fragment.
    With at least one fragment in the sequence the read has a value: the
    handler assembles the artifact with the first fragment's type and
    registers it (it can still stop at a missing [load_resolver] afterwards).
    With an empty sequence the read has no value and the handler throws
    before doing anything.  Empty data events are never appended, so a device
    that only ever delivers empty data leaves the sequence empty and the
    stop handler fails: nothing is read, resolved or handed to the host. *)
Theorem C10_first_fragment_type :
  forall cfg date_now s,
    (forall first rest,
        recorded_data_chunks s = first :: rest ->
        let blob := new_Blob (first :: rest) (blob_type first) in
        let c := stop_event_handler cfg date_now s in
        audio_url (reached c) = Some (BlobURL (next_url s))
        /\ (c = Normal (reached c) /\ data (reached c) = Some blob
            /\ data_readers (reached c) = data_readers s ++ [blob]
            \/ c = Throw no_resolver (reached c)
               /\ local_download cfg = true /\ load_resolver s = None))
    /\ (recorded_data_chunks s = [] ->
        stop_event_handler cfg date_now s = Throw no_first_fragment s)
    /\ (forall fragment,
        blob_size fragment = 0%nat -> data_available_handler fragment s = s)
    /\ (forall events s1 s2,
        all_silent events = true ->
        run cfg events = Some s1 -> on_stop s1 = true ->
        step cfg s1 (DevStop date_now) = Some s2 ->
        recorded_data_chunks s1 = []
        /\ uncaught s2 = uncaught s1 ++ [no_first_fragment]
        /\ finished s2 = finished s1
        /\ data_readers s2 = data_readers s1
        /\ load_resolver s2 = load_resolver s1).
Proof.
  intros cfg date_now s. split; [|split; [|split]].
  - intros first rest Hc blob c. subst blob c.
    destruct s, cfg. read_fields_in Hc. subst.
    exec; read_fields; (split; [reflexivity|]).
    all: first [ left; repeat split; reflexivity
               | right; repeat split; reflexivity ].
  - intro Hc. unfold stop_event_handler. now rewrite Hc.
  - intros fragment Hsize. unfold data_available_handler. now rewrite Hsize.
  - intros events s1 s2 Hsilent Hrun Hon Hstep.
    assert (Hc : recorded_data_chunks s1 = []).
    { apply (silent_run_keeps_no_fragment cfg events (started cfg) s1);
        auto using started_microtasks. }
    assert (Hm : microtasks s1 = []) by (eapply run_microtasks_empty; eauto).
    split; [exact Hc|].
    destruct s1, cfg. read_fields_in Hc. read_fields_in Hm.
    read_fields_in Hon. subst.
    enabled Hstep; exec; read_fields; repeat split; reflexivity.
Qed.

Example silent_device_fails :
  exists s,
    run Scenario.defaults Scenario.silent_device = Some s
    /\ uncaught s = [no_first_fragment]
    /\ outcomes s = [] /\ data_readers s = [].
Proof. eexists. split; [vm_compute; reflexivity|]. repeat split. Qed.

(** The silent device of the scenarios, through the theorem: its stop event
    ends in the TypeError and no outcome. *)
Lemma C10_witness :
  exists s1 s2,
    run Scenario.defaults Scenario.silent_before_stop = Some s1
    /\ step Scenario.defaults s1 (DevStop 1747257891581) = Some s2
    /\ recorded_data_chunks s1 = []
    /\ uncaught s2 = [no_first_fragment]
    /\ finished s2 = []
    /\ stop_event_handler Scenario.defaults 1747257891581 s1
       = Throw no_first_fragment s1.
Proof.
  eexists _, _.
  split; [vm_compute; reflexivity|].
  split; [vm_compute; reflexivity|].
  match goal with
  | |- recorded_data_chunks ?s1 = _ /\ uncaught ?s2 = _ /\ _ =>
      destruct (C10_first_fragment_type Scenario.defaults 1747257891581 s1)
        as [_ [Hempty [_ Htrace]]];
      destruct (Htrace Scenario.silent_before_stop s1 s2 eq_refl
                  ltac:(vm_compute; reflexivity) eq_refl
                  ltac:(vm_compute; reflexivity))
        as [Hc [Hu [Hf _]]]
  end.
  split; [exact Hc|]. split; [exact Hu|]. split; [exact Hf|].
  apply Hempty. exact Hc.
Defined.

(** ** C8: the base64 response *)

Lemma nth_error_last {A : Type} (l : list A) (x : A) :
  nth_error (l ++ [x]) (List.length l) = Some x.
Proof. induction l as [|a l IH]; [reflexivity | exact IH]. Qed.

Lemma remove_nth_last {A : Type} (l : list A) (x : A) :
  remove_nth (List.length l) (l ++ [x]) = l.
Proof. induction l as [|a l IH]; [reflexivity | cbn; now rewrite IH]. Qed.

Lemma not_extended {A : Type} (l : list A) (x : A) : l = l ++ [x] -> False.
Proof.
  intro H. apply (f_equal (@List.length A)) in H.
  rewrite length_app in H. cbn in H. lia.
Qed.

(** Where [split(",")[1]] is the base64 text.  Without local download, when
    the recorder fires "stop" on a non-empty fragment sequence whose first
    fragment has a content type without a comma, and the data-URL reader the
    stop handler started then completes, the response is the base64 text of
    the assembled artifact: decoding it gives back exactly the bytes of the
    fragments, in order.  An outcome handed over by that completion carries
    this response. *)
Lemma base64_round_trip_without_comma :
  forall cfg s date_now first rest s1 s2,
    local_download cfg = false ->
    microtasks s = [] ->
    on_stop s = true ->
    recorded_data_chunks s = first :: rest ->
    comma_free (blob_type first) = true ->
    step cfg s (DevStop date_now) = Some s1 ->
    step cfg s1 (ReaderLoad (List.length (data_readers s))) = Some s2 ->
    let bytes := List.concat (map blob_bytes (first :: rest)) in
    response s2 = Some (Base64.encode bytes)
    /\ Base64.decode (Base64.encode bytes) = Some bytes
    /\ forall caller td,
         finished s2 = finished s1 ++ [(caller, td)] ->
         td_response td = Some (Base64.encode bytes).
Proof.
  intros cfg s date_now first rest s1 s2 Hd Hm Hon Hc Hty H1 H2 bytes.
  assert (Hb : base64_of_result
                 (dataURL (new_Blob (first :: rest) (blob_type first)))
               = Some (Base64.encode bytes))
    by (now apply base64_of_dataURL).
  split; [|split; [apply Base64Facts.decode_encode|]]; revert H2.
  all: destruct s, cfg; read_fields_in Hd; read_fields_in Hm;
    read_fields_in Hon; read_fields_in Hc; subst.
  all: enabled H1; exec; read_fields; intro H2.
  all: enabling_test H2; rewrite nth_error_last in H2; injection H2 as <-.
  all: exec; read_fields; try exact Hb.
  all: intros caller td Hf;
    first [ now apply not_extended in Hf
          | apply app_inv_head in Hf; injection Hf as _ <-; exact Hb ].
Qed.

(** C8: what the code does.  Without local download, one non-empty fragment
    ["Man"] whose content type names two codecs, separated by a comma: the
    reader's result is
    ["data:audio/webm;codecs=opus,pcm;base64,TWFu"], [split(",")[1]] is a
    piece of the content type, and that piece is the response the host
    receives.  It is not base64 text; the base64 text of the artifact is
    ["TWFu"], the third piece. *)
Theorem C8_comma_in_content_type :
  exists s,
    run Scenario.defaults Scenario.two_codec_take = Some s
    /\ local_download Scenario.defaults = false
    /\ recorded_data_chunks s = [Scenario.two_codecs]
    /\ dataURL (new_Blob [Scenario.two_codecs]
                  (blob_type Scenario.two_codecs)) =
         "data:audio/webm;codecs=opus,pcm;base64,TWFu"%string
    /\ map td_response (outcomes s) = [Some "pcm;base64"%string]
    /\ Base64.decode "pcm;base64" = None
    /\ Base64.encode (blob_bytes Scenario.two_codecs) = "TWFu"%string
    /\ Base64.decode "TWFu" = Some (blob_bytes Scenario.two_codecs).
Proof.
  eexists. split; [vm_compute; reflexivity|].
  repeat split; reflexivity.
Qed.

(** ** C5 and C6: the detached transcription *)

Import Transcription.

(** Every call of [transcribe] belongs to an outcome the host has received,
    and was given the handle of that outcome. *)
Lemma run_dispatches cfg events s :
  run cfg events = Some s ->
  Forall2 (fun entry call => ta_audio_url call = td_audio_url (snd entry))
    (finished s) (transcribe_calls s).
Proof.
  apply (run_invariant cfg (fun s =>
    Forall2 (fun entry call => ta_audio_url call = td_audio_url (snd entry))
      (finished s) (transcribe_calls s)));
    [ cbv beta; rewrite started_fields; unfold fresh; read_fields;
      constructor |].
  intros s0 e s1 Hm HP Hstep.
  destruct (step_conclusion cfg s0 e s1 Hm Hstep)
    as [_ [[Hf [Ht _]] | [c [Hf [Ht _]]]]]; rewrite Hf, Ht; [exact HP|].
  apply Forall2_app; [exact HP|]. constructor; [|constructor].
  reflexivity.
Qed.

(** C5 (as amended).  [transcribe] has no handler for its failures.  When
    the engine cannot be loaded, the promise of the async function is
    rejected with that failure, nothing is fetched, the engine is not called
    and nothing is logged; when the fetch fails, the promise is rejected with
    that failure, the engine is not called and nothing is logged; when the
    engine call fails, the promise is rejected with that failure and nothing
    is logged; only when all three succeed is the promise fulfilled and the
    transcript logged.  None of this reaches the trial: a run of the trial
    and its outcomes are the same whatever the services do, and every call of
    [transcribe] is that of an outcome the host has received, with the
    handle of that outcome. *)
Theorem C5_transcription_failures_stay_outside :
  forall cfg events s,
    run cfg events = Some s ->
    forall sv,
      Forall2
        (fun entry call =>
           let engine := pipeline sv "automatic-speech-recognition"
                           "Xenova/whisper-tiny.en" in
           let audio := fetch_arrayBuffer sv (ta_audio_url call) in
           let text := transcriber sv (FromAddress wav)
                         {| return_timestamps := "word" |} in
           let outside := dispatch sv call in
           ta_audio_url call = td_audio_url (snd entry)
           /\ (forall reason,
                 engine = Failed reason ->
                 settled outside = Failed reason
                 /\ console outside = []
                 /\ fetched outside = []
                 /\ engine_calls outside = [])
           /\ (forall reason,
                 engine = Ok tt -> audio = Failed reason ->
                 settled outside = Failed reason
                 /\ console outside = []
                 /\ engine_calls outside = [])
           /\ (forall bytes reason,
                 engine = Ok tt -> audio = Ok bytes -> text = Failed reason ->
                 settled outside = Failed reason
                 /\ console outside = [])
           /\ (forall bytes transcript,
                 engine = Ok tt -> audio = Ok bytes -> text = Ok transcript ->
                 settled outside = Ok tt
                 /\ console outside = [transcript]))
        (finished s) (transcribe_calls s).
Proof.
  intros cfg events s Hrun sv.
  eapply Forall2_impl; [|exact (run_dispatches cfg events s Hrun)].
  intros entry call Hurl. cbv zeta beta. split; [exact Hurl|].
  unfold dispatch, transcribe.
  destruct (pipeline sv _ _) as [[]|r1];
    [destruct (fetch_arrayBuffer sv _) as [bytes|r2];
       [destruct (transcriber sv _ _) as [out|r3]|]|].
  all: repeat split; intros; try discriminate;
    repeat match goal with
           | H : Failed _ = Failed _ |- _ => injection H as <-
           | H : Ok _ = Ok _ |- _ => injection H as <-
           end;
    reflexivity.
Qed.

(** The first take with an engine that cannot be loaded, through the
    theorem: one outcome, one call, rejected and silent. *)
Lemma C5_witness :
  exists s entry call,
    run Scenario.defaults Scenario.first_take = Some s
    /\ finished s = [entry]
    /\ transcribe_calls s = [call]
    /\ ta_audio_url call = td_audio_url (snd entry)
    /\ settled (dispatch Scenario.engine_down call)
       = Failed "engine unavailable"
    /\ console (dispatch Scenario.engine_down call) = []
    /\ fetched (dispatch Scenario.engine_down call) = [].
Proof.
  eexists _, _, _. split; [vm_compute; reflexivity|].
  split; [vm_compute; reflexivity|].
  split; [vm_compute; reflexivity|].
  pose proof (C5_transcription_failures_stay_outside Scenario.defaults
                Scenario.first_take _ ltac:(vm_compute; reflexivity)
                Scenario.engine_down) as H.
  vm_compute in H.
  inversion H as [|entry call ? ? [Hurl [Hengine _]] _]; subst.
  destruct (Hengine _ eq_refl) as [Hs [Hc [Hf _]]].
  split; [exact Hurl|]. split; [exact Hs|]. split; [exact Hc | exact Hf].
Defined.

(** C5, the claim as stated, fails: with an engine that cannot be loaded the
    failure is neither caught nor logged; it rejects the promise that
    [endTrial] dropped. *)
Lemma C5_counterexample :
  exists s call,
    run Scenario.defaults Scenario.first_take = Some s
    /\ transcribe_calls s = [call]
    /\ settled (dispatch Scenario.engine_down call)
       = Failed "engine unavailable"
    /\ console (dispatch Scenario.engine_down call) = []
    /\ settled (dispatch Scenario.fetch_down call) = Failed "fetch failed"
    /\ console (dispatch Scenario.fetch_down call) = [].
Proof.
  eexists _, _. split; [vm_compute; reflexivity|].
  split; [vm_compute; reflexivity|]. repeat split; reflexivity.
Qed.

(** C6: what the code does.  Whatever handle and buffers [transcribe] is
    given, and whatever the fetch returns, the engine is called at most once,
    on the address written into the function, with word-level timestamps
    requested; the fetched bytes are not passed on. *)
Theorem C6_engine_input_is_fixed :
  forall sv audio_url arrayBuffer data,
    let run := transcribe sv audio_url arrayBuffer data in
    (engine_calls run = []
     \/ engine_calls run =
          [(FromAddress
              "http://localhost:8000/examples/audio-response-1747257891581.wav",
            {| return_timestamps := "word" |})])
    /\ (fetched run = [] \/ fetched run = [audio_url])
    /\ forall bytes options,
         ~ In (FromBytes bytes, options) (engine_calls run).
Proof.
  intros sv audio_url arrayBuffer data run. subst run. unfold transcribe.
  destruct (pipeline sv _ _) as [[]|r];
    [destruct (fetch_arrayBuffer sv _) as [bytes|r];
       [destruct (transcriber sv _ _) as [out|r]|]|];
    cbn; repeat split; auto; intros b o H;
    try (destruct H as [H|[]]; discriminate); try contradiction.
Qed.

(** The first take with every service working: the artifact of the trial is
    fetched from its handle, and the engine is called on the fixed address. *)
Lemma C6_failing_run :
  exists s call,
    run Scenario.defaults Scenario.first_take = Some s
    /\ transcribe_calls s = [call]
    /\ ta_audio_url call = Some (BlobURL 0)
    /\ fetched (dispatch Scenario.all_fine call) = [Some (BlobURL 0)]
    /\ engine_calls (dispatch Scenario.all_fine call) =
         [(FromAddress wav, {| return_timestamps := "word" |})]
    /\ console (dispatch Scenario.all_fine call) = ["man"%string].
Proof.
  eexists _, _. split; [vm_compute; reflexivity|].
  split; [vm_compute; reflexivity|]. repeat split; reflexivity.
Qed.

(** ** C2: the response with local download *)

(** C2: what the code does.  With local download and playback review, the
    stop handler assigns the file name, triggers the download and resolves the
    stop wait, and then still starts the data-URL reader; when the reader
    completes its listener assigns the base64 text over the file name, and
    that is the response the host receives on accept. *)
Theorem C2_download_response_overwritten :
  exists s_stop s_load s_end,
    run Scenario.with_playback_and_download
      (Scenario.before_stop ++ [DevStop 1747257891581]) = Some s_stop
    /\ response s_stop = Some "audio-response-1747257891581.wav"%string
    /\ downloads s_stop =
         [("audio-response-1747257891581.wav"%string, BlobURL 0)]
    /\ data_readers s_stop = [Scenario.take1]
    /\ step Scenario.with_playback_and_download s_stop (ReaderLoad 0)
       = Some s_load
    /\ response s_load = Some "TWFu"%string
    /\ run Scenario.with_playback_and_download Scenario.accept_once
       = Some s_end
    /\ map td_response (outcomes s_end) = [Some "TWFu"%string].
Proof.
  eexists _, _, _. split; [vm_compute; reflexivity|].
  do 3 (split; [reflexivity|]). split; [vm_compute; reflexivity|].
  split; [reflexivity|]. split; [vm_compute; reflexivity|]. reflexivity.
Qed.

(** ** C3: the deadline timer of an earlier attempt *)

(** Without a restart in between, the guard does its work: on an inactive
    recorder the deadline callback changes nothing. *)
Lemma deadline_on_inactive_recorder s :
  recorder_state s = Inactive -> deadline_callback s = s.
Proof. intro H. unfold deadline_callback. now rewrite H. Qed.

(** C3: what the code does.  The done button ended the first attempt at
    510 ms, "record again" started a second recording at 1000 ms, and the
    first attempt's timer is still pending.  When it expires it finds the
    recorder recording, so it issues a second stop request and stops the
    second attempt, whose own timer has not expired. *)
Theorem C3_stale_deadline_stops_next_attempt :
  exists s s',
    run Scenario.with_playback Scenario.second_take_running = Some s
    /\ recorder_state s = Recording
    /\ stop_requests s = 1%nat
    /\ timers s = [Deadline; Deadline]
    /\ step Scenario.with_playback s (TimerFires 0) = Some s'
    /\ recorder_state s' = Inactive
    /\ stop_requests s' = 2%nat
    /\ recorder_tasks s' = [TaskStop]
    /\ load_resolver s' = Some {| made_by := DeadlineStop; resolved := false |}
    /\ timers s' = [Deadline].
Proof.
  eexists _, _. split; [vm_compute; reflexivity|].
  do 3 (split; [reflexivity|]). split; [vm_compute; reflexivity|].
  repeat split; reflexivity.
Qed.

(** ** C9: no deadline and no done button *)

Lemma forallb_remove_nth {A : Type} (p : A -> bool) (l : list A) : forall i,
  forallb p l = true -> forallb p (remove_nth i l) = true.
Proof.
  induction l as [|x l IH]; intros i H; [now destruct i|].
  cbn in H. apply andb_true_iff in H as [Hx Hl].
  destruct i; cbn; [exact Hl|]. now rewrite Hx, IH.
Qed.

Lemma forallb_nth_error {A : Type} (p : A -> bool) (l : list A) : forall i x,
  forallb p l = true -> nth_error l i = Some x -> p x = true.
Proof.
  induction l as [|y l IH]; intros i x H Hn; [now destruct i|].
  cbn in H. apply andb_true_iff in H as [Hy Hl].
  destruct i; cbn in Hn; [now injection Hn as <- | eauto].
Qed.

(** Without a deadline, without a done button and without an element of
    the stimulus that takes its place, a step keeps the trial where nothing
    can conclude it: no stop wait, no outcome, no deadline timer, no control
    on the screen. *)
Lemma step_unattended cfg s e s' :
  recording_duration cfg = None -> show_done_button cfg = false ->
  stimulus_has_finish_trial cfg = false ->
  microtasks s = [] -> load_resolver s = None -> finished s = [] ->
  forallb is_hide (timers s) = true -> no_controls (display s) = true ->
  step cfg s e = Some s' ->
  microtasks s' = [] /\ load_resolver s' = None /\ finished s' = []
  /\ forallb is_hide (timers s') = true /\ no_controls (display s') = true.
Proof.
  intros Hrd Hsb Hid Hm Hl Hf Ht Hd H. destruct s, cfg.
  read_fields_in Hrd; read_fields_in Hsb; read_fields_in Hid;
    read_fields_in Hm;
    read_fields_in Hl; read_fields_in Hf; read_fields_in Ht;
    read_fields_in Hd; subst.
  destruct e; enabled H; try discriminate; exec; read_fields.
  all: repeat split; try reflexivity; try assumption.
  all: try (rewrite forallb_app, Ht; reflexivity).
  all: try (apply forallb_remove_nth; assumption).
  all: try (match goal with
            | Hn : nth_error _ _ = Some Deadline |- _ =>
                apply (forallb_nth_error _ _ _ _ Ht) in Hn; discriminate
            end).
  all: try (destruct visible; discriminate).
Qed.

Lemma run_from_unattended cfg events : forall s s',
  recording_duration cfg = None -> show_done_button cfg = false ->
  stimulus_has_finish_trial cfg = false ->
  microtasks s = [] -> load_resolver s = None -> finished s = [] ->
  forallb is_hide (timers s) = true -> no_controls (display s) = true ->
  run_from cfg s events = Some s' ->
  load_resolver s' = None /\ finished s' = []
  /\ forallb is_hide (timers s') = true /\ no_controls (display s') = true.
Proof.
  induction events as [|e rest IH]; intros s s' Hrd Hsb Hid Hm Hl Hf Ht Hd H;
    cbn in H.
  - injection H as <-. auto.
  - destruct (step cfg s e) as [s1|] eqn:E; [|discriminate].
    destruct (step_unattended cfg s e s1 Hrd Hsb Hid Hm Hl Hf Ht Hd E)
      as [Hm1 [Hl1 [Hf1 [Ht1 Hd1]]]].
    now apply (IH s1 s').
Qed.

(** C9 (as amended).  With [recording_duration] null and [show_done_button]
    false, and a stimulus whose markup has no element with the id
    [finish-trial], no sequence of events reaches the conclusion: in every
    state of every run no recording-deadline timer is pending, no done button
    (and no playback control) is rendered, no stop wait exists, and no
    outcome has been handed to the host.  This holds for all events of the
    model, the end of the stream included, so in particular before any
    external stop. *)
Theorem C9_no_autonomous_conclusion :
  forall cfg events s,
    recording_duration cfg = None ->
    show_done_button cfg = false ->
    stimulus_has_finish_trial cfg = false ->
    run cfg events = Some s ->
    outcomes s = []
    /\ ~ In Deadline (timers s)
    /\ (forall visible wired, display s <> StimulusView visible (Button wired))
    /\ (forall src, display s <> PlaybackView src)
    /\ load_resolver s = None.
Proof.
  intros cfg events s Hrd Hsb Hid Hrun.
  destruct (run_from_unattended cfg events (started cfg) s Hrd Hsb Hid)
    as [Hl [Hf [Ht Hd]]]; try reflexivity; try exact Hrun.
  split; [unfold outcomes; now rewrite Hf|].
  split; [|split; [|split]].
  - intro Hin. rewrite forallb_forall in Ht. now apply Ht in Hin.
  - intros visible wired Heq. rewrite Heq in Hd. discriminate.
  - intros src Heq. rewrite Heq in Hd. discriminate.
  - exact Hl.
Qed.

(** The unattended trial of the scenarios, through the theorem: the stimulus
    is hidden, data arrives, the stream ends, the readers complete, and
    still there is no outcome. *)
Lemma C9_witness :
  exists s,
    run Scenario.unattended Scenario.left_alone = Some s
    /\ outcomes s = []
    /\ ~ In Deadline (timers s)
    /\ load_resolver s = None.
Proof.
  eexists. split; [vm_compute; reflexivity|].
  match goal with
  | |- outcomes ?s = _ /\ _ =>
      destruct (C9_no_autonomous_conclusion Scenario.unattended
                  Scenario.left_alone s eq_refl eq_refl eq_refl
                  ltac:(vm_compute; reflexivity)) as [Ho [Ht [_ [_ Hl]]]]
  end.
  auto.
Defined.

(** C9, the claim as stated, fails.  [recording_duration] is null and
    [show_done_button] is false, but the stimulus brings a button with the id
    [finish-trial]: [addButtonEvent] finds it and wires it, a click on it
    stops the recorder, and the trial concludes from the stop wait of that
    click without any stop from outside. *)
Lemma C9_counterexample :
  exists s td,
    recording_duration Scenario.own_button = None
    /\ show_done_button Scenario.own_button = false
    /\ run Scenario.own_button [DevStart 0; Resize 10] = Some s
    /\ display s = StimulusView true (Button true)
    /\ never is_ended Scenario.first_take = true
    /\ option_map finished (run Scenario.own_button Scenario.first_take)
       = Some [(AfterStop ManualStop, td)]
    /\ td_rt td = Some (Ms 500).
Proof.
  eexists _, _. split; [reflexivity|]. split; [reflexivity|].
  split; [vm_compute; reflexivity|].
  split; [reflexivity|]. split; [reflexivity|].
  split; vm_compute; reflexivity.
Qed.

(** ** C1: how often the trial concludes *)












(** Why the runs with playback review are restricted.  With local download
    the stop handler resolves the stop wait before the data-URL reader has
    completed.  "Record again" is clicked, the deadline timer of the first
    attempt expires before the recorder has fired "start" and begins a new
    stop wait, and the take on screen is accepted.  The reader of the first
    attempt then completes and resolves that wait: the playback view is
    rendered after the conclusion, and a click on accept hands over a second
    outcome. *)
Lemma deadline_during_playback_concludes_twice :
  exists s,
    run Scenario.with_playback_and_download
      [ DevStart 0; Resize 10; ClickDone 510; DevData Scenario.take1;
        DevStop 1747257891581; ClickRecordAgain; TimerFires 0; ClickContinue;
        ReaderLoad 0; ClickContinue ] = Some s
    /\ map fst (finished s) = [AcceptClick; AcceptClick].
Proof.
  eexists. split; [vm_compute; reflexivity|]. reflexivity.
Qed.

(** ** C4: what the outcome carries after re-recording *)

(** Outcomes are never taken back. *)
Lemma run_from_not_concluded cfg events : forall s s',
  microtasks s = [] -> run_from cfg s events = Some s' ->
  finished s' = [] -> finished s = [].
Proof.
  induction events as [|e rest IH]; intros s s' Hm H Hf; cbn in H.
  - now injection H as <-.
  - destruct (step cfg s e) as [s1|] eqn:E; [|discriminate].
    destruct (step_outcome cfg s e s1 Hm E) as [Hm1 Hout].
    specialize (IH s1 s' Hm1 H Hf).
    destruct Hout as [Hs | [c [Hs _]]]; rewrite Hs in IH; [exact IH|].
    now apply app_eq_nil in IH as [_ IH].
Qed.

(** Until the trial concludes, the fragment sequence holds the non-empty
    fragments delivered since the latest "start" event, and the recorder's
    start time is the timestamp of that event. *)
Lemma run_from_fragments cfg events : forall s s',
  microtasks s = [] -> on_start s = true -> on_dataavailable s = true ->
  run_from cfg s events = Some s' -> finished s' = [] ->
  recorded_data_chunks s' = fragments_after (recorded_data_chunks s) events
  /\ recorder_start_time s' = armed_after (recorder_start_time s) events
  /\ on_start s' = true /\ on_dataavailable s' = true.
Proof.
  induction events as [|e rest IH]; intros s s' Hm Hs Hd H Hf; cbn in H.
  - injection H as <-. auto.
  - destruct (step cfg s e) as [s1|] eqn:E; [|discriminate].
    destruct (step_outcome cfg s e s1 Hm E) as [Hm1 _].
    pose proof (run_from_not_concluded cfg rest s1 s' Hm1 H Hf) as Hf1.
    destruct (step_fragments cfg s e s1 Hm E) as [Hc [Hr Hl]].
    destruct Hl as [[Hs1 [Hd1 _]] | [o Ho]].
    + rewrite Hs in Hs1. rewrite Hd in Hd1.
      destruct (IH s1 s' Hm1 Hs1 Hd1 H Hf) as [IHc [IHr IHl]].
      rewrite IHc, IHr, Hc, Hr, Hs, Hd.
      split; [|split; [|exact IHl]]; destruct e; reflexivity.
    + rewrite Ho in Hf1. now apply app_eq_nil in Hf1 as [_ Hf1].
Qed.

(** [rt] is written by the click listener of the done button and by nothing
    else. *)
Lemma step_rt cfg s e s' :
  microtasks s = [] -> step cfg s e = Some s' ->
  rt s' =
    match e with
    | ClickDone now =>
        match display s with
        | StimulusView _ (Button true) =>
            Some (Math_round (js_since now (stimulus_start_time s)))
        | _ => rt s
        end
    | _ => rt s
    end.
Proof.
  intros Hm H. destruct s, cfg. read_fields_in Hm. subst.
  destruct e; enabled H; exec; read_fields; reflexivity.
Qed.

(** A click on "record again" releases the current handle and restarts the
    recorder, or fails on a recorder that is already recording; it never
    concludes. *)
Lemma step_record_again cfg s s' :
  microtasks s = [] -> step cfg s ClickRecordAgain = Some s' ->
  (forall u, audio_url s = Some u -> revoked s' = revoked s ++ [u])
  /\ finished s' = finished s
  /\ (recorder_state s = Inactive ->
      recorder_state s' = Recording
      /\ recorder_tasks s' = recorder_tasks s ++ [TaskStart]).
Proof.
  intros Hm H. destruct s, cfg. read_fields_in Hm. subst.
  enabled H; exec; read_fields.
  all: split; [intros u Hu; try discriminate; now injection Hu as <-|].
  all: split; [reflexivity|]; intro Hr; try discriminate; auto.
Qed.

(** The continue button hands over the fields as they are. *)
Lemma step_accept cfg s s' :
  microtasks s = [] -> step cfg s ClickContinue = Some s' ->
  finished s' = finished s ++ [(AcceptClick, trial_data cfg s)].
Proof.
  intros Hm H. destruct s, cfg. read_fields_in Hm. subst.
  enabled H; exec; read_fields; reflexivity.
Qed.

(** The artifact the stop handler assembles is made of the fragment sequence,
    with the content type of its first fragment. *)
Lemma stop_handler_artifact cfg date_now s s' :
  stop_event_handler cfg date_now s = Normal s' ->
  exists first rest,
    recorded_data_chunks s = first :: rest
    /\ data s' = Some (new_Blob (first :: rest) (blob_type first))
    /\ audio_url s' = Some (BlobURL (next_url s)).
Proof.
  revert s'. destruct s, cfg. intro s'. exec; read_fields; intro H;
    try discriminate; injection H as <-; eexists _, _;
    repeat split; reflexivity.
Qed.

(** C4: what the code does.  With playback review, the done button ends
    the first attempt 500 ms after the stimulus was seen and the take is
    played back; "record again" is clicked; the second attempt runs into its
    deadline without a click.  The second "start" has emptied the fragment
    sequence and set the recorder's start time anew, and the response is
    that of the second take; but nothing has reset [rt], and the outcome of
    the accepted second attempt carries the 500 ms of the first. *)
Theorem C4_stale_rt_after_rerecording :
  exists s1 s2 s,
    run Scenario.with_playback Scenario.first_take = Some s1
    /\ rt s1 = Some (Ms 500)
    /\ recorded_data_chunks s1 = [Scenario.take1]
    /\ recorder_start_time s1 = At 0
    /\ run Scenario.with_playback Scenario.second_take_reviewed = Some s2
    /\ recorded_data_chunks s2 = [Scenario.take2]
    /\ recorder_start_time s2 = At 2500
    /\ load_resolver s2
       = Some {| made_by := DeadlineStop; resolved := true |}
    /\ rt s2 = Some (Ms 500)
    /\ run Scenario.with_playback Scenario.second_take_timed_out = Some s
    /\ map td_rt (outcomes s) = [Some (Ms 500)]
    /\ map td_response (outcomes s) = [Some "SGk="%string]
    /\ Base64.encode (blob_bytes Scenario.take2) = "SGk="%string.
Proof.
  eexists _, _, _. split; [vm_compute; reflexivity|].
  split; [reflexivity|]. split; [reflexivity|]. split; [reflexivity|].
  split; [vm_compute; reflexivity|].
  split; [reflexivity|]. split; [reflexivity|]. split; [reflexivity|].
  split; [reflexivity|]. split; [vm_compute; reflexivity|].
  repeat split; reflexivity.
Qed.

(** * Further properties of the plugin *)

(** ** The listeners of the recorder *)

(** The listeners follow the conclusion: registered as long as there is no
    outcome, unregistered from the first outcome on. *)
Lemma run_listeners cfg events s :
  run cfg events = Some s ->
  match finished s with
  | [] => on_dataavailable s = true /\ on_stop s = true /\ on_start s = true
  | _ :: _ =>
      on_dataavailable s = false /\ on_stop s = false /\ on_start s = false
  end.
Proof.
  apply (run_invariant cfg (fun s =>
    match finished s with
    | [] => on_dataavailable s = true /\ on_stop s = true /\ on_start s = true
    | _ :: _ =>
        on_dataavailable s = false /\ on_stop s = false /\ on_start s = false
    end));
    [ cbv beta; rewrite started_fields; unfold fresh; read_fields;
      repeat split |].
  intros s0 e s1 Hm HP Hstep.
  destruct (step_conclusion cfg s0 e s1 Hm Hstep)
    as [_ [[Hf [_ [Hd [Hs [Ht _]]]]] | [c [Hf [_ [Hd [Hs [Ht _]]]]]]]].
  - now rewrite Hf, Hd, Hs, Ht.
  - rewrite Hf. destruct (finished s0); cbn; auto.
Qed.

(** With every listener unregistered, an event of the recorder only leaves
    the recorder's queue. *)
Lemma step_unregistered cfg s e s' :
  microtasks s = [] ->
  on_dataavailable s = false -> on_stop s = false -> on_start s = false ->
  is_recorder_event e = true ->
  step cfg s e = Some s' ->
  s' = set_recorder_tasks (recorder_tasks s') s.
Proof.
  intros Hm Hd Hs Ht He H. destruct s, cfg.
  read_fields_in Hm; read_fields_in Hd; read_fields_in Hs;
    read_fields_in Ht; subst.
  destruct e; try discriminate; enabled H; exec; read_fields; reflexivity.
Qed.

(** X1.  The three listeners [setupRecordingEvents] registers stay
    registered as long as the trial has not concluded, whatever happens.
    Once [endTrial] has run they stay removed, and whatever the recorder
    fires afterwards ("start", "dataavailable", "stop") changes nothing but
    the recorder's own queue: no fragment is appended, no artifact is
    assembled, no reader is started, no handle is created, no timer is armed
    and nothing is rendered. *)
Theorem X1_listeners_follow_the_conclusion :
  forall cfg events s,
    run cfg events = Some s ->
    (finished s = [] ->
     on_dataavailable s = true /\ on_stop s = true /\ on_start s = true)
    /\ (finished s <> [] ->
        on_dataavailable s = false /\ on_stop s = false /\ on_start s = false
        /\ forall e s',
             is_recorder_event e = true ->
             step cfg s e = Some s' ->
             s' = set_recorder_tasks (recorder_tasks s') s).
Proof.
  intros cfg events s Hrun.
  pose proof (run_listeners cfg events s Hrun) as Hl.
  split; intro Hf.
  - now rewrite Hf in Hl.
  - destruct (finished s) as [|o rest]; [contradiction|].
    destruct Hl as [Hd [Hs Ht]]. repeat split; try assumption.
    intros e s' He Hstep.
    apply (step_unregistered cfg s e s'); auto.
    eapply run_microtasks_empty; eauto.
Qed.

(** The first take is accepted while the recorder is about to fire the
    "start" of a second one: that "start" shows no stimulus and arms no
    timer. *)
Lemma X1_witness :
  exists s s',
    run Scenario.with_playback Session.accepted_while_restarting = Some s
    /\ step Scenario.with_playback s (DevStart 1000) = Some s'
    /\ on_start s = false
    /\ s' = set_recorder_tasks (recorder_tasks s') s.
Proof.
  eexists _, _. split; [vm_compute; reflexivity|].
  split; [vm_compute; reflexivity|].
  match goal with
  | |- on_start ?s = _ /\ ?s' = _ =>
      destruct (X1_listeners_follow_the_conclusion Scenario.with_playback
                  Session.accepted_while_restarting s
                  ltac:(vm_compute; reflexivity)) as [_ Hafter];
      destruct (Hafter ltac:(discriminate)) as [_ [_ [Hstart Hignored]]];
      split; [exact Hstart|];
      exact (Hignored (DevStart 1000) s' eq_refl
               ltac:(vm_compute; reflexivity))
  end.
Defined.

(** ** The handle in the outcome *)



(** ** Transcription calls *)

(** X3.  [transcribe] is called once per outcome, in the same order, with
    the [audio_url] of that outcome; without [save_audio_url] every call
    receives [undefined] as its address. *)
Theorem X3_transcribe_calls_follow_outcomes :
  forall cfg events s,
    run cfg events = Some s ->
    map ta_audio_url (transcribe_calls s) = map td_audio_url (outcomes s)
    /\ (save_audio_url cfg = false ->
        Forall (fun call => ta_audio_url call = None) (transcribe_calls s)).
Proof.
  intros cfg events s.
  apply (run_invariant cfg (fun s =>
    map ta_audio_url (transcribe_calls s) = map td_audio_url (outcomes s)
    /\ (save_audio_url cfg = false ->
        Forall (fun call => ta_audio_url call = None) (transcribe_calls s))));
    [ cbv beta; rewrite started_fields; unfold fresh; read_fields;
      split; [reflexivity | intros _; constructor] |].
  intros s0 e s1 Hm [Hmap Hnone] Hstep. unfold outcomes in *.
  destruct (step_conclusion cfg s0 e s1 Hm Hstep)
    as [_ [[Hf [Ht _]] | [c [Hf [Ht _]]]]]; rewrite Hf, Ht.
  - auto.
  - rewrite !map_app, Hmap. split; [reflexivity|].
    intro Hs. apply Forall_app. split; [auto|].
    constructor; [|constructor]. unfold transcribe_call, trial_data. cbn.
    now rewrite Hs.
Qed.

(** The concluded trial without a kept handle: one call, of an undefined
    address. *)
Lemma X3_witness :
  exists s,
    run Session.without_url Scenario.first_take = Some s
    /\ map ta_audio_url (transcribe_calls s) = map td_audio_url (outcomes s)
    /\ Forall (fun call => ta_audio_url call = None) (transcribe_calls s)
    /\ List.length (transcribe_calls s) = 1%nat.
Proof.
  eexists. split; [vm_compute; reflexivity|].
  match goal with
  | |- map _ (transcribe_calls ?s) = _ /\ _ =>
      destruct (X3_transcribe_calls_follow_outcomes Session.without_url
                  Scenario.first_take s ltac:(vm_compute; reflexivity))
        as [Hmap Hnone]
  end.
  split; [exact Hmap|]. split; [exact (Hnone eq_refl) | reflexivity].
Defined.

(** ** Downloads *)

(** X4.  Without [local_download] no download is ever triggered. *)
Theorem X4_no_download_without_local_download :
  forall cfg events s,
    local_download cfg = false ->
    run cfg events = Some s ->
    downloads s = [].
Proof.
  intros cfg events s Hd.
  apply (run_invariant cfg (fun s => downloads s = []));
    [ cbv beta; rewrite started_fields; unfold fresh; read_fields;
      reflexivity |].
  intros s0 e s1 Hm HP Hstep.
  destruct (step_conclusion cfg s0 e s1 Hm Hstep) as [Hdl _].
  now rewrite (Hdl Hd).
Qed.

Lemma X4_witness :
  exists s,
    run Scenario.defaults Scenario.first_take = Some s
    /\ List.length (finished s) = 1%nat
    /\ downloads s = [].
Proof.
  eexists. split; [vm_compute; reflexivity|]. split; [reflexivity|].
  match goal with
  | |- downloads ?s = _ =>
      exact (X4_no_download_without_local_download Scenario.defaults
               Scenario.first_take s eq_refl ltac:(vm_compute; reflexivity))
  end.
Defined.

(** ** Who concludes with playback review *)

(** X5.  With [allow_playback] every outcome comes from a click on the
    accept button: neither stop wait calls [endTrial]. *)
Theorem X5_only_accept_concludes_with_playback :
  forall cfg events s,
    allow_playback cfg = true ->
    run cfg events = Some s ->
    Forall (fun entry => fst entry = AcceptClick) (finished s).
Proof.
  intros cfg events s Hap.
  apply (run_invariant cfg (fun s =>
    Forall (fun entry => fst entry = AcceptClick) (finished s)));
    [ cbv beta; rewrite started_fields; unfold fresh; read_fields;
      constructor |].
  intros s0 e s1 Hm HP Hstep.
  destruct (step_conclusion cfg s0 e s1 Hm Hstep)
    as [_ [[Hf _] | [c [Hf [_ [_ [_ [_ [Hc _]]]]]]]]]; rewrite Hf; [exact HP|].
  apply Forall_app. split; [exact HP|]. constructor; [|constructor].
  now apply Hc.
Qed.

Lemma X5_witness :
  exists s,
    run Scenario.with_playback Scenario.second_take_timed_out = Some s
    /\ List.length (finished s) = 1%nat
    /\ Forall (fun entry => fst entry = AcceptClick) (finished s).
Proof.
  eexists. split; [vm_compute; reflexivity|]. split; [reflexivity|].
  match goal with
  | |- Forall _ (finished ?s) =>
      exact (X5_only_accept_concludes_with_playback Scenario.with_playback
               Scenario.second_take_timed_out s eq_refl
               ltac:(vm_compute; reflexivity))
  end.
Defined.

(** ** Trials without playback review *)

Lemma step_single_attempt cfg s e s' :
  allow_playback cfg = false ->
  single_attempt s -> step cfg s e = Some s' -> single_attempt s'.
Proof.
  intros Hap [Hm [Hd [Hr [Hl Hf]]]] H. unfold single_attempt.
  destruct s, cfg.
  read_fields_in Hap; read_fields_in Hm; read_fields_in Hd;
    read_fields_in Hr; read_fields_in Hl; read_fields_in Hf; subst.
  destruct e; enabled H; try discriminate; exec; read_fields.
  all: repeat match goal with
         | H : _ /\ _ |- _ => destruct H
         end; subst.
  all: repeat split; try reflexivity; try assumption; try discriminate;
    try lia.
  all: try (apply Forall_app; split; [assumption|];
            constructor; [|constructor]; unfold path_agrees; cbn;
            first [assumption | discriminate | reflexivity]).
Qed.

Lemma run_single_attempt cfg events s :
  allow_playback cfg = false ->
  run cfg events = Some s -> single_attempt s.
Proof.
  intro Hap. apply (run_invariant cfg single_attempt).
  - unfold single_attempt.
    cbv beta; rewrite started_fields; unfold fresh; read_fields.
    repeat split. constructor.
  - intros s0 e s1 _ HP Hstep. now apply (step_single_attempt cfg s0 e s1).
Qed.

(** X6.  Without [allow_playback] the plugin stops the recorder at most
    once in a trial, however the done button, the deadline and later clicks
    interleave: any further call of [stop()] finds the recorder inactive and
    does nothing.  The playback view is never rendered. *)
Theorem X6_at_most_one_stop_request_without_playback :
  forall cfg events s,
    allow_playback cfg = false ->
    run cfg events = Some s ->
    (stop_requests s <= 1)%nat
    /\ (stop_requests s = 1%nat -> recorder_state s = Inactive)
    /\ forall src, display s <> PlaybackView src.
Proof.
  intros cfg events s Hap Hrun.
  destruct (run_single_attempt cfg events s Hap Hrun)
    as [_ [Hd [Hr _]]].
  split; [|split].
  - destruct (recorder_state s); [exact Hr|]. destruct Hr as [-> _]. lia.
  - intro H1. destruct (recorder_state s); [reflexivity|].
    destruct Hr as [H0 _]. rewrite H0 in H1. discriminate.
  - intros src Heq. rewrite Heq in Hd. discriminate.
Qed.

(** The done button at 510 ms, the deadline timer before the recorder has
    fired "stop": one stop request. *)
Lemma X6_witness :
  exists s,
    run Scenario.defaults
      (Scenario.before_stop
       ++ [TimerFires 0; DevStop 1747257891581; ReaderLoad 0]) = Some s
    /\ stop_requests s = 1%nat
    /\ recorder_state s = Inactive.
Proof.
  eexists. split; [vm_compute; reflexivity|]. split; [reflexivity|].
  match goal with
  | |- recorder_state ?s = _ =>
      destruct (X6_at_most_one_stop_request_without_playback Scenario.defaults
                  (Scenario.before_stop
                   ++ [TimerFires 0; DevStop 1747257891581; ReaderLoad 0]) s eq_refl
                  ltac:(vm_compute; reflexivity)) as [_ [Hinactive _]]
  end.
  exact (Hinactive eq_refl).
Defined.

(** X7.  Without [allow_playback] every outcome comes from a stop wait, and
    its [rt] tells which: a number (or NaN) when the wait was started by the
    done button, [null] when it was started by the deadline. *)
Theorem X7_rt_tells_the_stop_path_without_playback :
  forall cfg events s caller td,
    allow_playback cfg = false ->
    run cfg events = Some s ->
    In (caller, td) (finished s) ->
    (caller = AfterStop ManualStop /\ td_rt td <> None)
    \/ (caller = AfterStop DeadlineStop /\ td_rt td = None).
Proof.
  intros cfg events s caller td Hap Hrun Hin.
  destruct (run_single_attempt cfg events s Hap Hrun)
    as [_ [_ [_ [_ Hf]]]].
  rewrite Forall_forall in Hf. specialize (Hf _ Hin).
  unfold path_agrees in Hf. cbn in Hf.
  destruct caller as [[|]|]; [left | right | contradiction]; auto.
Qed.

(** Nobody clicks: the outcome comes from the deadline's stop wait and has
    no reaction time. *)
Lemma X7_witness :
  exists s td,
    run Scenario.defaults Session.timed_out = Some s
    /\ finished s = [(AfterStop DeadlineStop, td)]
    /\ td_rt td = None.
Proof.
  eexists _, _. split; [vm_compute; reflexivity|].
  split; [vm_compute; reflexivity|].
  match goal with
  | |- td_rt ?td = None =>
      destruct (X7_rt_tells_the_stop_path_without_playback Scenario.defaults
                  Session.timed_out _ (AfterStop DeadlineStop) td eq_refl
                  ltac:(vm_compute; reflexivity)
                  ltac:(left; reflexivity)) as [[Hc _] | [_ Hrt]];
      [discriminate Hc | exact Hrt]
  end.
Defined.

(** ** The reaction time *)

Lemma run_from_no_done_click cfg events : forall s s',
  microtasks s = [] -> rt s = None ->
  Forall (fun td => td_rt td = None) (outcomes s) ->
  never is_done_click events = true ->
  run_from cfg s events = Some s' ->
  rt s' = None /\ Forall (fun td => td_rt td = None) (outcomes s').
Proof.
  induction events as [|e rest IH]; intros s s' Hm Hrt Hout Hnever H;
    cbn in H.
  - injection H as <-. auto.
  - destruct (step cfg s e) as [s1|] eqn:E; [|discriminate].
    cbn in Hnever. apply andb_true_iff in Hnever as [He Hrest].
    destruct (step_outcome cfg s e s1 Hm E) as [Hm1 Hfin].
    assert (Hrt1 : rt s1 = None).
    { rewrite (step_rt cfg s e s1 Hm E). destruct e; try exact Hrt.
      discriminate He. }
    apply (IH s1 s' Hm1 Hrt1); [|exact Hrest|exact H].
    unfold outcomes in *.
    destruct Hfin as [Hf | [c [Hf _]]]; rewrite Hf; [exact Hout|].
    rewrite map_app. apply Forall_app. split; [exact Hout|].
    constructor; [|constructor]. exact Hrt1.
Qed.

(** X8.  As long as the done button has not been clicked, [rt] is [null],
    in the plugin and in every outcome handed over. *)
Theorem X8_rt_is_null_without_done_click :
  forall cfg events s,
    never is_done_click events = true ->
    run cfg events = Some s ->
    rt s = None /\ Forall (fun td => td_rt td = None) (outcomes s).
Proof.
  intros cfg events s Hnever Hrun.
  apply (run_from_no_done_click cfg events (started cfg) s);
    [ apply started_microtasks
    | rewrite started_fields; reflexivity
    | rewrite started_fields; constructor
    | exact Hnever | exact Hrun ].
Qed.

(** Playback review, a second take ended by its deadline and accepted, the
    button never clicked: the one outcome has [rt] null. *)
Lemma X8_witness :
  exists s,
    run Scenario.with_playback Session.two_takes_timed_out = Some s
    /\ List.length (outcomes s) = 1%nat
    /\ Forall (fun td => td_rt td = None) (outcomes s).
Proof.
  eexists. split; [vm_compute; reflexivity|]. split; [reflexivity|].
  match goal with
  | |- Forall _ (outcomes ?s) =>
      exact (proj2 (X8_rt_is_null_without_done_click Scenario.with_playback
                      Session.two_takes_timed_out s eq_refl
                      ltac:(vm_compute; reflexivity)))
  end.
Defined.

Lemma step_no_button cfg s e s' :
  show_done_button cfg = false ->
  stimulus_has_finish_trial cfg = false ->
  microtasks s = [] -> has_done_button (display s) = false ->
  step cfg s e = Some s' ->
  has_done_button (display s') = false /\ is_done_click e = false.
Proof.
  intros Hsb Hid Hm Hd H. destruct s, cfg.
  read_fields_in Hsb; read_fields_in Hid; read_fields_in Hm;
    read_fields_in Hd; subst.
  destruct e; enabled H; try discriminate; exec; read_fields.
  all: split; try reflexivity; try assumption.
  all: try (destruct visible; discriminate).
Qed.

Lemma run_from_no_button cfg events : forall s s',
  show_done_button cfg = false ->
  stimulus_has_finish_trial cfg = false ->
  microtasks s = [] -> has_done_button (display s) = false ->
  run_from cfg s events = Some s' ->
  never is_done_click events = true
  /\ has_done_button (display s') = false.
Proof.
  induction events as [|e rest IH]; intros s s' Hsb Hid Hm Hd H;
    cbn in H.
  - injection H as <-. auto.
  - destruct (step cfg s e) as [s1|] eqn:E; [|discriminate].
    destruct (step_no_button cfg s e s1 Hsb Hid Hm Hd E) as [Hd1 He].
    destruct (step_outcome cfg s e s1 Hm E) as [Hm1 _].
    destruct (IH s1 s' Hsb Hid Hm1 Hd1 H) as [Hn Hd'].
    split; [|exact Hd']. unfold never in *. cbn. now rewrite He, Hn.
Qed.

(** X9.  Without [show_done_button], and with a stimulus whose markup has no
    element with the id [finish-trial], nothing is ever rendered that the
    done listener is wired to, so no sequence of events contains a click on
    it, and [rt] is [null] in the plugin and in every outcome. *)
Theorem X9_rt_is_null_without_done_button :
  forall cfg events s,
    show_done_button cfg = false ->
    stimulus_has_finish_trial cfg = false ->
    run cfg events = Some s ->
    never is_done_click events = true
    /\ has_done_button (display s) = false
    /\ rt s = None
    /\ Forall (fun td => td_rt td = None) (outcomes s).
Proof.
  intros cfg events s Hsb Hid Hrun.
  destruct (run_from_no_button cfg events (started cfg) s Hsb Hid
              (started_microtasks cfg)
              ltac:(rewrite started_fields; reflexivity) Hrun) as [Hn Hd].
  split; [exact Hn|]. split; [exact Hd|].
  apply (run_from_no_done_click cfg events (started cfg) s);
    [ apply started_microtasks
    | rewrite started_fields; reflexivity
    | rewrite started_fields; constructor
    | exact Hn | exact Hrun ].
Qed.

(** A trial without a done button, stopped by its deadline: the outcome has
    no [rt]. *)
Lemma X9_witness :
  exists s,
    run Session.no_button Session.timed_out = Some s
    /\ has_done_button (display s) = false
    /\ map td_rt (outcomes s) = [None]
    /\ Forall (fun td => td_rt td = None) (outcomes s).
Proof.
  eexists. split; [vm_compute; reflexivity|]. split; [reflexivity|].
  split; [reflexivity|].
  match goal with
  | |- Forall _ (outcomes ?s) =>
      destruct (X9_rt_is_null_without_done_button Session.no_button
                  Session.timed_out s eq_refl eq_refl
                  ltac:(vm_compute; reflexivity))
        as [_ [_ [_ Hout]]]
  end.
  exact Hout.
Defined.

(** ** Before the recorder has started *)

Lemma step_awaiting_start cfg s e s' :
  microtasks s = [] -> awaiting_start s ->
  step cfg s e = Some s' ->
  is_start e = true \/ (e = DevEnded /\ awaiting_start s').
Proof.
  intros Hm [Hd [Ht [Ho [Hdr [Hbr [Hl [Hf [Hc [Hs [Hr Hq]]]]]]]]]] H.
  unfold awaiting_start. destruct s, cfg.
  read_fields_in Hm; read_fields_in Hd; read_fields_in Ht;
    read_fields_in Ho; read_fields_in Hdr; read_fields_in Hbr;
    read_fields_in Hl; read_fields_in Hf; read_fields_in Hc;
    read_fields_in Hs; read_fields_in Hr; read_fields_in Hq; subst.
  match type of Hq with
  | hd_error ?queue = _ => destruct queue as [|t rest]; [discriminate Hq|]
  end.
  cbn in Hq. injection Hq as ->.
  destruct e; try (left; reflexivity); enabled H; try discriminate;
    try (destruct i; discriminate).
  exec; read_fields. right. repeat split.
Qed.

(** X10.  [trial] itself renders nothing: until the recorder fires "start"
    the display is blank, no timer is armed, nothing is observed and no
    control can be clicked; the only events that can reach the plugin or the
    recorder are that "start" and the end of the stream. *)
Theorem X10_nothing_is_shown_before_the_start_event :
  forall cfg events s,
    never is_start events = true ->
    run cfg events = Some s ->
    awaiting_start s
    /\ forall e s', step cfg s e = Some s' ->
                   is_start e = true \/ e = DevEnded.
Proof.
  intros cfg events s Hnever Hrun.
  assert (Hgen : forall events s0 s,
             microtasks s0 = [] -> awaiting_start s0 ->
             never is_start events = true ->
             run_from cfg s0 events = Some s ->
             microtasks s = [] /\ awaiting_start s).
  { clear. intros events.
    induction events as [|e rest IH]; intros s0 s Hm Ha Hn H; cbn in H.
    - injection H as <-. auto.
    - destruct (step cfg s0 e) as [s1|] eqn:E; [|discriminate].
      cbn in Hn. apply andb_true_iff in Hn as [He Hrest].
      destruct (step_outcome cfg s0 e s1 Hm E) as [Hm1 _].
      destruct (step_awaiting_start cfg s0 e s1 Hm Ha E) as [Hs | [_ Ha1]].
      + rewrite Hs in He. discriminate.
      + now apply (IH s1 s). }
  destruct (Hgen events (started cfg) s (started_microtasks cfg)
              ltac:(unfold awaiting_start; rewrite started_fields;
                    repeat split) Hnever Hrun) as [Hm Ha].
  split; [exact Ha|].
  intros e s' Hstep.
  destruct (step_awaiting_start cfg s e s' Hm Ha Hstep) as [Hs | [He _]];
    auto.
Qed.

Lemma X10_witness :
  exists s,
    run Scenario.defaults Session.ended_early = Some s
    /\ recorder_state s = Inactive
    /\ awaiting_start s.
Proof.
  eexists. split; [vm_compute; reflexivity|]. split; [reflexivity|].
  match goal with
  | |- awaiting_start ?s =>
      exact (proj1 (X10_nothing_is_shown_before_the_start_event
                      Scenario.defaults Session.ended_early s eq_refl
                      ltac:(vm_compute; reflexivity)))
  end.
Defined.

(** ** Timers that are never armed *)

Lemma step_stimulus_stays cfg s e s' :
  stimulus_duration cfg = None ->
  microtasks s = [] ->
  forallb (fun t => negb (is_hide t)) (timers s) = true ->
  stimulus_hidden (display s) = false ->
  step cfg s e = Some s' ->
  forallb (fun t => negb (is_hide t)) (timers s') = true
  /\ stimulus_hidden (display s') = false.
Proof.
  intros Hsd Hm Ht Hd H. destruct s, cfg.
  read_fields_in Hsd; read_fields_in Hm; read_fields_in Ht;
    read_fields_in Hd; subst.
  destruct e; enabled H; try discriminate; exec; read_fields.
  all: split; try reflexivity; try assumption.
  all: try (rewrite forallb_app, Ht; reflexivity).
  all: try (apply forallb_remove_nth; assumption).
  all: try (match goal with
            | Hn : nth_error _ _ = Some HideStimulus |- _ =>
                apply (forallb_nth_error _ _ _ _ Ht) in Hn; discriminate
            end).
Qed.

(** X11.  With [stimulus_duration] null no hide timer is ever armed and the
    stimulus is never hidden, through the conclusion and after it. *)
Theorem X11_stimulus_stays_visible_without_duration :
  forall cfg events s,
    stimulus_duration cfg = None ->
    run cfg events = Some s ->
    ~ In HideStimulus (timers s)
    /\ forall done_button, display s <> StimulusView false done_button.
Proof.
  intros cfg events s Hsd Hrun.
  assert (H : forallb (fun t => negb (is_hide t)) (timers s) = true
              /\ stimulus_hidden (display s) = false).
  { revert events s Hrun.
    apply (run_invariant cfg (fun s =>
      forallb (fun t => negb (is_hide t)) (timers s) = true
      /\ stimulus_hidden (display s) = false));
      [ cbv beta; rewrite started_fields; unfold fresh; read_fields;
        split; reflexivity |].
    intros s0 e s1 Hm [Ht Hd] Hstep.
    now apply (step_stimulus_stays cfg s0 e s1). }
  destruct H as [Ht Hd]. split.
  - intro Hin. rewrite forallb_forall in Ht. apply Ht in Hin. discriminate.
  - intros b Heq. rewrite Heq in Hd. discriminate.
Qed.

Lemma X11_witness :
  exists s,
    run Scenario.defaults Session.recording = Some s
    /\ timers s = [Deadline]
    /\ display s = StimulusView true (Button true)
    /\ ~ In HideStimulus (timers s).
Proof.
  eexists. split; [vm_compute; reflexivity|]. split; [reflexivity|].
  split; [reflexivity|].
  match goal with
  | |- ~ In _ (timers ?s) =>
      exact (proj1 (X11_stimulus_stays_visible_without_duration
                      Scenario.defaults Session.recording s eq_refl
                      ltac:(vm_compute; reflexivity)))
  end.
Defined.

Lemma step_manual_only cfg s e s' :
  recording_duration cfg = None ->
  microtasks s = [] ->
  forallb is_hide (timers s) = true ->
  match load_resolver s with
  | Some p => made_by p = ManualStop
  | None => True
  end ->
  Forall (fun entry => fst entry <> AfterStop DeadlineStop) (finished s) ->
  step cfg s e = Some s' ->
  forallb is_hide (timers s') = true
  /\ match load_resolver s' with
     | Some p => made_by p = ManualStop
     | None => True
     end
  /\ Forall (fun entry => fst entry <> AfterStop DeadlineStop) (finished s').
Proof.
  intros Hrd Hm Ht Hl Hf H. destruct s, cfg.
  read_fields_in Hrd; read_fields_in Hm; read_fields_in Ht;
    read_fields_in Hl; read_fields_in Hf; subst.
  destruct e; enabled H; try discriminate; exec; read_fields.
  all: repeat split; try reflexivity; try assumption.
  all: try (rewrite forallb_app, Ht; reflexivity).
  all: try (apply forallb_remove_nth; assumption).
  all: try (match goal with
            | Hn : nth_error _ _ = Some Deadline |- _ =>
                apply (forallb_nth_error _ _ _ _ Ht) in Hn; discriminate
            end).
  all: try (apply Forall_app; split; [assumption|];
            constructor; [|constructor]; cbn in *; subst; discriminate).
Qed.

(** X12.  With [recording_duration] null no deadline timer is ever armed,
    every stop wait is the done button's, and no outcome comes from the
    deadline path. *)
Theorem X12_no_deadline_stop_without_duration :
  forall cfg events s,
    recording_duration cfg = None ->
    run cfg events = Some s ->
    ~ In Deadline (timers s)
    /\ (forall p, load_resolver s = Some p -> made_by p = ManualStop)
    /\ Forall (fun entry => fst entry <> AfterStop DeadlineStop) (finished s).
Proof.
  intros cfg events s Hrd Hrun.
  assert (H : forallb is_hide (timers s) = true
              /\ match load_resolver s with
                 | Some p => made_by p = ManualStop
                 | None => True
                 end
              /\ Forall (fun entry => fst entry <> AfterStop DeadlineStop)
                   (finished s)).
  { revert events s Hrun.
    apply (run_invariant cfg (fun s =>
      forallb is_hide (timers s) = true
      /\ match load_resolver s with
         | Some p => made_by p = ManualStop
         | None => True
         end
      /\ Forall (fun entry => fst entry <> AfterStop DeadlineStop)
           (finished s)));
      [ cbv beta; rewrite started_fields; unfold fresh; read_fields;
        repeat split; constructor |].
    intros s0 e s1 Hm [Ht [Hl Hf]] Hstep.
    now apply (step_manual_only cfg s0 e s1). }
  destruct H as [Ht [Hl Hf]]. split; [|split].
  - intro Hin. rewrite forallb_forall in Ht. apply Ht in Hin. discriminate.
  - intros p Hp. now rewrite Hp in Hl.
  - exact Hf.
Qed.

Lemma X12_witness :
  exists s,
    run Session.no_deadline Scenario.first_take = Some s
    /\ timers s = []
    /\ map fst (finished s) = [AfterStop ManualStop]
    /\ Forall (fun entry => fst entry <> AfterStop DeadlineStop) (finished s).
Proof.
  eexists. split; [vm_compute; reflexivity|]. split; [reflexivity|].
  split; [reflexivity|].
  match goal with
  | |- Forall _ (finished ?s) =>
      destruct (X12_no_deadline_stop_without_duration Session.no_deadline
                  Scenario.first_take s eq_refl
                  ltac:(vm_compute; reflexivity)) as [_ [_ Hf]]
  end.
  exact Hf.
Defined.

(** ** Local download without playback review *)

Lemma some_eq {A : Type} (x y : A) : Some x = Some y -> x = y.
Proof. intro H. now injection H. Qed.

(** As [enabled], for a state in which the callback can run to its end: the
    tests are split on and the resulting state is left unevaluated. *)
Ltac delivering H :=
  enabling_test H;
  match type of H with
  | match ?x with _ => _ end = Some _ =>
      revert H; destruct x eqn:?; intro H; try discriminate H
  end;
  repeat match type of H with
         | match ?x with _ => _ end = Some _ =>
             revert H; destruct x eqn:?; intro H; try discriminate H
         end.

(** X13.  With [local_download] and without [allow_playback], the "stop"
    event of a recording that a stop wait is pending for concludes the trial
    at once: the download is triggered under the file name, the outcome is
    handed over with that file name as its response, before the data-URL
    reader (which the handler still starts) has delivered anything. *)
Theorem X13_download_concludes_with_the_file_name :
  forall cfg s date_now first rest via s',
    allow_playback cfg = false ->
    local_download cfg = true ->
    microtasks s = [] ->
    on_stop s = true ->
    recorded_data_chunks s = first :: rest ->
    load_resolver s = Some {| made_by := via; resolved := false |} ->
    step cfg s (DevStop date_now) = Some s' ->
    exists td,
      finished s' = finished s ++ [(AfterStop via, td)]
      /\ td_response td = Some (file_name cfg date_now)
      /\ downloads s' =
           downloads s ++ [(file_name cfg date_now, BlobURL (next_url s))]
      /\ data_readers s' =
           data_readers s ++ [new_Blob (first :: rest) (blob_type first)].
Proof.
  intros cfg s date_now first rest via s' Hap Hld Hm Hon Hc Hl H.
  unfold file_name. destruct s, cfg.
  read_fields_in Hap; read_fields_in Hld; read_fields_in Hm;
    read_fields_in Hon; read_fields_in Hc; read_fields_in Hl; subst.
  delivering H; apply some_eq in H; subst.
  exec; read_fields; eexists; repeat split; reflexivity.
Qed.

Lemma X13_witness :
  exists s s',
    run Session.with_download Scenario.before_stop = Some s
    /\ step Session.with_download s (DevStop 1747257891581) = Some s'
    /\ exists td,
         finished s' = finished s ++ [(AfterStop ManualStop, td)]
         /\ td_response td = Some "audio-response-1747257891581.wav"%string
         /\ List.length (data_readers s') = 1%nat.
Proof.
  eexists _, _. split; [vm_compute; reflexivity|].
  split; [vm_compute; reflexivity|].
  match goal with
  | |- exists td, finished ?s' = finished ?s ++ _ /\ _ =>
      destruct (X13_download_concludes_with_the_file_name Session.with_download
                  s 1747257891581%N Scenario.take1 [] ManualStop s'
                  eq_refl eq_refl eq_refl eq_refl eq_refl eq_refl
                  ltac:(vm_compute; reflexivity))
        as [td [Hfin [Hresp _]]]
  end.
  exists td. split; [exact Hfin|]. split; [|reflexivity].
  etransitivity; [exact Hresp | vm_compute; reflexivity].
Defined.

(** ** The stimulus time *)

Lemma step_stimulus_time cfg s e s' :
  microtasks s = [] -> step cfg s e = Some s' ->
  stimulus_start_time s' =
    match e with
    | Resize now => At now
    | _ => stimulus_start_time s
    end.
Proof.
  intros Hm H. destruct s, cfg. read_fields_in Hm. subst.
  destruct e; enabled H; exec; read_fields; reflexivity.
Qed.

Lemma run_from_unobserved cfg events : forall s s',
  microtasks s = [] -> stimulus_start_time s = Undefined ->
  (rt s = None \/ rt s = Some MsNaN) ->
  Forall (fun td => td_estimated_stimulus_onset td = MsNaN
                    /\ (td_rt td = None \/ td_rt td = Some MsNaN))
    (outcomes s) ->
  never is_resize events = true ->
  run_from cfg s events = Some s' ->
  stimulus_start_time s' = Undefined
  /\ (rt s' = None \/ rt s' = Some MsNaN)
  /\ Forall (fun td => td_estimated_stimulus_onset td = MsNaN
                       /\ (td_rt td = None \/ td_rt td = Some MsNaN))
       (outcomes s').
Proof.
  induction events as [|e rest IH]; intros s s' Hm Hs Hrt Hout Hnever H;
    cbn in H.
  - injection H as <-. auto.
  - destruct (step cfg s e) as [s1|] eqn:E; [|discriminate].
    unfold never in Hnever. cbn in Hnever.
    apply andb_true_iff in Hnever as [He Hrest].
    destruct (step_outcome cfg s e s1 Hm E) as [Hm1 Hfin].
    assert (Hs1 : stimulus_start_time s1 = Undefined).
    { rewrite (step_stimulus_time cfg s e s1 Hm E).
      destruct e; try exact Hs. discriminate He. }
    assert (Hrt1 : rt s1 = None \/ rt s1 = Some MsNaN).
    { rewrite (step_rt cfg s e s1 Hm E). destruct e; try exact Hrt.
      destruct (display s) as [|v [|[|]]|]; try exact Hrt.
      right. now rewrite Hs. }
    apply (IH s1 s' Hm1 Hs1 Hrt1); [|exact Hrest|exact H].
    unfold outcomes in *.
    destruct Hfin as [Hf | [c [Hf _]]]; rewrite Hf; [exact Hout|].
    rewrite map_app. apply Forall_app. split; [exact Hout|].
    constructor; [|constructor]. unfold trial_data. cbn.
    rewrite Hs1. split; [reflexivity | exact Hrt1].
Qed.

(** X14.  [stimulus_start_time] is written by the ResizeObserver callback
    alone.  In a trial in which that callback has not run, the field is
    [undefined], every outcome has [estimated_stimulus_onset] NaN, and its
    [rt] is [null] or, after a click on the done button, NaN. *)
Theorem X14_timing_is_NaN_without_observation :
  forall cfg events s,
    never is_resize events = true ->
    run cfg events = Some s ->
    stimulus_start_time s = Undefined
    /\ Forall (fun td => td_estimated_stimulus_onset td = MsNaN
                         /\ (td_rt td = None \/ td_rt td = Some MsNaN))
         (outcomes s).
Proof.
  intros cfg events s Hnever Hrun.
  destruct (run_from_unobserved cfg events (started cfg) s
              (started_microtasks cfg)
              ltac:(rewrite started_fields; reflexivity)
              ltac:(left; rewrite started_fields; reflexivity)
              ltac:(rewrite started_fields; constructor)
              Hnever Hrun) as [Hs [_ Hout]].
  auto.
Qed.

(** The done button is clicked before the observer has reported: both
    timing fields of the outcome are NaN. *)
Lemma X14_witness :
  exists s,
    run Scenario.defaults Session.unobserved = Some s
    /\ map td_rt (outcomes s) = [Some MsNaN]
    /\ Forall (fun td => td_estimated_stimulus_onset td = MsNaN
                         /\ (td_rt td = None \/ td_rt td = Some MsNaN))
         (outcomes s).
Proof.
  eexists. split; [vm_compute; reflexivity|]. split; [reflexivity|].
  match goal with
  | |- Forall _ (outcomes ?s) =>
      exact (proj2 (X14_timing_is_NaN_without_observation Scenario.defaults
                      Session.unobserved s eq_refl
                      ltac:(vm_compute; reflexivity)))
  end.
Defined.

(** ** Fragments *)

Lemma concat_head_length {A : Type} (first : list A) (rest : list (list A)) :
  (List.length first <= List.length (List.concat (first :: rest)))%nat.
Proof. cbn. rewrite length_app. lia. Qed.

(** X15.  An empty fragment is never stored: every element of
    [recorded_data_chunks] has a positive size.  Hence whenever the stop
    handler completes, the artifact it assembles is not empty, and its bytes
    are those of the stored fragments in their order. *)
Theorem X15_fragments_are_never_empty :
  forall cfg events s,
    run cfg events = Some s ->
    Forall (fun b => (0 < blob_size b)%nat) (recorded_data_chunks s)
    /\ forall date_now s',
         stop_event_handler cfg date_now s = Normal s' ->
         exists blob,
           data s' = Some blob
           /\ (0 < blob_size blob)%nat
           /\ blob_bytes blob =
                List.concat (map blob_bytes (recorded_data_chunks s)).
Proof.
  intros cfg events s Hrun.
  assert (Hall : Forall (fun b => (0 < blob_size b)%nat)
                   (recorded_data_chunks s)).
  { revert events s Hrun.
    apply (run_invariant cfg (fun s =>
      Forall (fun b => (0 < blob_size b)%nat) (recorded_data_chunks s)));
      [ cbv beta; rewrite started_fields; unfold fresh; read_fields;
        constructor |].
    intros s0 e s1 Hm HP Hstep.
    destruct (step_fragments cfg s0 e s1 Hm Hstep) as [Hc _].
    rewrite Hc. destruct e; try exact HP.
    - destruct (on_start s0); [constructor | exact HP].
    - destruct (on_dataavailable s0); [|exact HP].
      destruct (Nat.ltb 0 (blob_size fragment)) eqn:Hsz; [|exact HP].
      apply Forall_app. split; [exact HP|].
      constructor; [|constructor]. now apply Nat.ltb_lt. }
  split; [exact Hall|].
  intros date_now s' Hstop.
  destruct (stop_handler_artifact cfg date_now s s' Hstop)
    as [first [rest [Hc [Hdata _]]]].
  eexists. split; [exact Hdata|]. rewrite Hc in *.
  split; [|reflexivity].
  inversion Hall as [|? ? Hfirst _]; subst.
  unfold blob_size in *. cbn [new_Blob blob_bytes map].
  pose proof (concat_head_length (blob_bytes first) (map blob_bytes rest)).
  lia.
Qed.

(** An empty fragment and one of three bytes were delivered: one is
    stored. *)
Lemma X15_witness :
  exists s,
    run Scenario.defaults Session.mixed_fragments = Some s
    /\ recorded_data_chunks s = [Scenario.take1]
    /\ Forall (fun b => (0 < blob_size b)%nat) (recorded_data_chunks s).
Proof.
  eexists. split; [vm_compute; reflexivity|]. split; [reflexivity|].
  match goal with
  | |- Forall _ (recorded_data_chunks ?s) =>
      exact (proj1 (X15_fragments_are_never_empty Scenario.defaults
                      Session.mixed_fragments s
                      ltac:(vm_compute; reflexivity)))
  end.
Defined.

(** ** The order of the stages of [transcribe] *)

(** X16.  [transcribe] awaits its three stages in order and stops at the
    first that fails: the handle is fetched exactly when the engine could be
    loaded; the engine is called exactly when, in addition, the fetch
    succeeded (although its result is not used); the output is logged exactly
    when the returned promise is fulfilled; and no stage runs twice. *)
Theorem X16_transcribe_stops_at_the_first_failure :
  forall sv audio_url arrayBuffer data,
    let run := transcribe sv audio_url arrayBuffer data in
    (fetched run = [audio_url] <->
       exists tt', pipeline sv "automatic-speech-recognition"
                     "Xenova/whisper-tiny.en" = Ok tt')
    /\ (engine_calls run <> [] <->
          (exists tt', pipeline sv "automatic-speech-recognition"
                         "Xenova/whisper-tiny.en" = Ok tt')
          /\ exists bytes, fetch_arrayBuffer sv audio_url = Ok bytes)
    /\ (settled run = Ok tt <-> exists out, console run = [out])
    /\ (List.length (fetched run) <= 1)%nat
    /\ (List.length (engine_calls run) <= 1)%nat
    /\ (List.length (console run) <= 1)%nat.
Proof.
  intros sv audio_url arrayBuffer data run. subst run. unfold transcribe.
  destruct (pipeline sv _ _) as [[]|r] eqn:Hp;
    [destruct (fetch_arrayBuffer sv _) as [bytes|r'] eqn:Hf;
       [destruct (transcriber sv _ _) as [out|r''] eqn:Ht|]|]; cbn.
  all: repeat split; intros;
    repeat match goal with
           | H : exists _, _ |- _ => destruct H
           | H : _ /\ _ |- _ => destruct H
           end;
    try congruence; try lia; eauto.
Qed.

(** ** A second click on the done button *)

(** Use what a test on a rendered view has found. *)
Ltac known_view :=
  repeat match goal with
         | H : StimulusView _ _ = _ |- _ => inversion H; subst; clear H
         end.

(** X17.  The done button stays wired after it has been clicked.  Without
    [allow_playback], a second click before the "stop" event overwrites [rt]
    with the time of the second click; the recorder, already inactive, gets
    no second stop request; and nothing is handed over by either click. *)
Theorem X17_rt_is_that_of_the_last_click :
  forall cfg s t1 t2 s1 s2 visible,
    allow_playback cfg = false ->
    microtasks s = [] ->
    display s = StimulusView visible (Button true) ->
    step cfg s (ClickDone t1) = Some s1 ->
    step cfg s1 (ClickDone t2) = Some s2 ->
    rt s1 = Some (Math_round (js_since t1 (stimulus_start_time s)))
    /\ rt s2 = Some (Math_round (js_since t2 (stimulus_start_time s)))
    /\ recorder_state s1 = Inactive
    /\ stop_requests s2 = stop_requests s1
    /\ recorder_tasks s2 = recorder_tasks s1
    /\ finished s2 = finished s.
Proof.
  intros cfg s t1 t2 s1 s2 visible Hap Hm Hd H1 H2. revert H2.
  destruct s, cfg.
  read_fields_in Hap; read_fields_in Hm; read_fields_in Hd; subst.
  enabled H1; known_view; exec; read_fields; intro H2.
  all: enabled H2; known_view; exec; read_fields; repeat split;
    reflexivity.
Qed.

(** Clicks at 510 ms and 620 ms on a stimulus seen at 10 ms: [rt] is 500,
    then 610, and the recorder was asked to stop once. *)
Lemma X17_witness :
  exists s s1 s2,
    run Scenario.defaults Session.recording = Some s
    /\ step Scenario.defaults s (ClickDone 510) = Some s1
    /\ step Scenario.defaults s1 (ClickDone 620) = Some s2
    /\ rt s1 = Some (Ms 500)
    /\ rt s2 = Some (Ms 610)
    /\ stop_requests s2 = 1%nat
    /\ finished s2 = finished s.
Proof.
  eexists _, _, _. split; [vm_compute; reflexivity|].
  split; [vm_compute; reflexivity|].
  split; [vm_compute; reflexivity|].
  match goal with
  | |- rt ?s1 = _ /\ rt ?s2 = _ /\ _ /\ _ = finished ?s =>
      destruct (X17_rt_is_that_of_the_last_click Scenario.defaults s 510 620
                  s1 s2 true eq_refl eq_refl eq_refl
                  ltac:(vm_compute; reflexivity)
                  ltac:(vm_compute; reflexivity))
        as [Hrt1 [Hrt2 [_ [_ [_ Hfin]]]]]
  end.
  split; [etransitivity; [exact Hrt1 | vm_compute; reflexivity]|].
  split; [etransitivity; [exact Hrt2 | vm_compute; reflexivity]|].
  split; [reflexivity | exact Hfin].
Defined.

(** ** What an outcome always carries *)

Lemma split_comma_second (p r : string) :
  nth_error (split_comma r) 1 <> None ->
  nth_error (split_comma (p ++ r)) 1 <> None.
Proof.
  induction p as [|c p IH]; intro H; cbn [append split_comma]; [exact H|].
  destruct (Ascii.eqb c ","); cbn [nth_error].
  - destruct (split_comma (p ++ r)) eqn:E; [|discriminate].
    now apply split_comma_nonempty in E.
  - specialize (IH H). destruct (split_comma (p ++ r)); [exact IH|exact IH].
Qed.

(** A data URL has a comma, whatever the content type: [split(",")[1]] is
    never [undefined]. *)
Lemma reader_result_has_a_second_piece (b : Blob) :
  base64_of_result (dataURL b) <> None.
Proof.
  unfold base64_of_result, dataURL.
  apply split_comma_second. apply split_comma_second.
  cbn [append split_comma Ascii.eqb Bool.eqb nth_error].
  destruct (split_comma (Base64.encode (blob_bytes b))) eqn:E; [|discriminate].
  now apply split_comma_nonempty in E.
Qed.

Lemma step_artifact_first cfg s e s' :
  microtasks s = [] -> artifact_first s -> step cfg s e = Some s' ->
  artifact_first s'
  /\ (finished s' = finished s
      \/ (response s' <> None /\ audio_url s' <> None)).
Proof.
  intros Hm Ha H. unfold artifact_first in Ha. destruct s, cfg.
  read_fields_in Hm; read_fields_in Ha; subst.
  repeat match type of Ha with
         | context [match ?x with _ => _ end] => is_var x; destruct x
         end;
    repeat match goal with H : _ /\ _ |- _ => destruct H end; subst.
  all: destruct e; enabled H; try discriminate; exec; read_fields.
  all: unfold artifact_first; read_fields.
  all: try match goal with
           | |- context [base64_of_result (dataURL ?b)] =>
               let E := fresh "E" in
               destruct (base64_of_result (dataURL b)) eqn:E;
               [|now apply reader_result_has_a_second_piece in E]
           end.
  all: try discriminate.
  all: try match goal with
           | H : nth_error [] ?i = Some _ |- _ => destruct i; discriminate H
           end.
  all: split;
    [ repeat split; try assumption; try reflexivity
    | try first [left; reflexivity | right; split; discriminate] ].
  all: try discriminate.
  all: try (intros ->; discriminate).
Qed.

(** X18.  Every outcome carries a response string, and a handle when
    [save_audio_url] is set: [endTrial] is reached only after the stop
    handler has created the handle and after the file name or the second
    piece of the reader's result has been assigned.  Likewise the playback
    view is rendered only when both exist, and it plays a defined address. *)
Theorem X18_every_outcome_has_a_response :
  forall cfg events s,
    run cfg events = Some s ->
    Forall (fun td => td_response td <> None
                      /\ (save_audio_url cfg = true -> td_audio_url td <> None))
      (outcomes s)
    /\ (forall src, display s = PlaybackView src ->
                    src <> None /\ response s <> None /\ audio_url s <> None).
Proof.
  intros cfg events s Hrun.
  assert (H : artifact_first s
              /\ Forall (fun td =>
                           td_response td <> None
                           /\ (save_audio_url cfg = true ->
                               td_audio_url td <> None)) (outcomes s)).
  { revert events s Hrun.
    apply (run_invariant cfg (fun s =>
      artifact_first s
      /\ Forall (fun td =>
                   td_response td <> None
                   /\ (save_audio_url cfg = true -> td_audio_url td <> None))
           (outcomes s)));
      [ unfold artifact_first; cbv beta; rewrite started_fields;
        unfold fresh; read_fields; repeat split; constructor |].
    intros s0 e s1 Hm [Ha Hout] Hstep.
    destruct (step_artifact_first cfg s0 e s1 Hm Ha Hstep) as [Ha1 Hnew].
    split; [exact Ha1|]. unfold outcomes in *.
    destruct (step_outcome cfg s0 e s1 Hm Hstep) as [_ [Hf | [c [Hf _]]]];
      rewrite Hf; [exact Hout|].
    rewrite map_app. apply Forall_app. split; [exact Hout|].
    constructor; [|constructor].
    destruct Hnew as [Hsame | [Hr Hu]].
    - rewrite Hf in Hsame. symmetry in Hsame.
      now apply not_extended in Hsame.
    - unfold trial_data. cbn. split; [exact Hr|].
      intros ->. exact Hu. }
  destruct H as [Ha Hout]. split; [exact Hout|].
  intros src Hd. unfold artifact_first in Ha. rewrite Hd in Ha.
  destruct (response s), (audio_url s); cbn in Ha;
    try (destruct Ha; discriminate); try discriminate.
  repeat split; try discriminate. intros ->. now apply Ha.
Qed.

(** A recorder whose content type contains a comma: the outcome still has a
    response string (though not the base64 text). *)
Lemma X18_witness :
  exists s,
    run Scenario.defaults Scenario.two_codec_take = Some s
    /\ map td_response (outcomes s) = [Some "pcm;base64"%string]
    /\ Forall (fun td => td_response td <> None
                         /\ (save_audio_url Scenario.defaults = true ->
                             td_audio_url td <> None))
         (outcomes s).
Proof.
  eexists. split; [vm_compute; reflexivity|]. split; [reflexivity|].
  match goal with
  | |- Forall _ (outcomes ?s) =>
      exact (proj1 (X18_every_outcome_has_a_response Scenario.defaults
                      Scenario.two_codec_take s
                      ltac:(vm_compute; reflexivity)))
  end.
Defined.

(** ** The exceptions a trial can raise *)

Lemma step_resolver_ready cfg s e s' :
  microtasks s = [] -> resolver_ready s -> is_ended e = false ->
  step cfg s e = Some s' ->
  resolver_ready s'
  /\ (uncaught s' = uncaught s
      \/ uncaught s' = uncaught s ++ [no_first_fragment]
      \/ (uncaught s' = uncaught s ++ [InvalidStateError]
          /\ e = ClickRecordAgain)).
Proof.
  intros Hm Hr He H. unfold resolver_ready in Hr.
  unfold no_first_fragment. destruct s, cfg.
  read_fields_in Hm; read_fields_in Hr; subst.
  repeat match type of Hr with
         | context [match ?x with _ => _ end] => is_var x; destruct x
         end;
    repeat match goal with H : _ /\ _ |- _ => destruct H end; subst.
  all: destruct e; try discriminate He; enabled H; try discriminate;
    exec; read_fields.
  all: unfold resolver_ready; read_fields.
  all: try match goal with
           | H : nth_error [] ?i = Some _ |- _ => destruct i; discriminate H
           end.
  all: try match goal with
           | H : forallb _ (_ :: _) = true |- _ => cbn in H; try discriminate H
           end.
  all: split;
    [ repeat split; try assumption; try reflexivity
    | try first [ left; reflexivity
                | right; left; reflexivity
                | right; right; split; reflexivity ] ].
  all: try (rewrite forallb_app; cbn [forallb is_start_task andb];
            match goal with
            | H : forallb _ _ = true |- _ => rewrite H; reflexivity
            end).
Qed.

Lemma record_again_needs_playback cfg s s' :
  step cfg s ClickRecordAgain = Some s' -> is_playback (display s) = true.
Proof.
  intro H. lazy beta iota delta [step] in H.
  destruct (display s); try discriminate H. reflexivity.
Qed.

Lemma run_from_resolver_ready cfg events : forall s s',
  microtasks s = [] -> resolver_ready s ->
  Forall (fun x => x = no_first_fragment \/ x = InvalidStateError)
    (uncaught s) ->
  (allow_playback cfg = false ->
   single_attempt s /\ Forall (fun x => x = no_first_fragment) (uncaught s)) ->
  never is_ended events = true ->
  run_from cfg s events = Some s' ->
  resolver_ready s'
  /\ Forall (fun x => x = no_first_fragment \/ x = InvalidStateError)
       (uncaught s')
  /\ (allow_playback cfg = false ->
      Forall (fun x => x = no_first_fragment) (uncaught s')).
Proof.
  induction events as [|e rest IH]; intros s s' Hm Hr Hall Hno Hnever H;
    cbn in H.
  - injection H as <-. split; [exact Hr|]. split; [exact Hall|].
    intro Hap. now apply Hno.
  - destruct (step cfg s e) as [s1|] eqn:E; [|discriminate].
    unfold never in Hnever. cbn in Hnever.
    apply andb_true_iff in Hnever as [He Hrest].
    apply negb_true_iff in He.
    destruct (step_outcome cfg s e s1 Hm E) as [Hm1 _].
    destruct (step_resolver_ready cfg s e s1 Hm Hr He E) as [Hr1 Hu].
    apply (IH s1 s' Hm1 Hr1); [| |exact Hrest|exact H].
    + destruct Hu as [-> | [-> | [-> _]]]; [exact Hall| |];
        (apply Forall_app; split; [exact Hall|]);
        constructor; auto.
    + intro Hap. destruct (Hno Hap) as [Hs Hf].
      split; [now apply (step_single_attempt cfg s e s1)|].
      destruct Hu as [-> | [-> | [_ ->]]]; [exact Hf| |].
      * apply Forall_app. split; [exact Hf|]. constructor; auto.
      * apply record_again_needs_playback in E.
        destruct Hs as [_ [Hd _]]. rewrite Hd in E. discriminate.
Qed.

(** X19.  Unless the stream ends on its own, [load_resolver] is a function
    whenever the stop handler or the reader's load listener calls it: every
    "stop" the recorder fires, and every pending reader, comes after a call
    of [stopRecording].  The only exceptions a trial raises are then the
    [TypeError] of the stop handler that finds no fragment and, with
    playback review, the [InvalidStateError] of a restart of a recorder that
    is already recording; without playback review only the former. *)
Theorem X19_errors_without_stream_end :
  forall cfg events s,
    never is_ended events = true ->
    run cfg events = Some s ->
    Forall (fun x => x = no_first_fragment \/ x = InvalidStateError)
      (uncaught s)
    /\ (allow_playback cfg = false ->
        Forall (fun x => x = no_first_fragment) (uncaught s))
    /\ (load_resolver s = None ->
        data_readers s = [] /\ ~ In TaskStop (recorder_tasks s)).
Proof.
  intros cfg events s Hnever Hrun.
  destruct (run_from_resolver_ready cfg events (started cfg) s
              (started_microtasks cfg)
              ltac:(unfold resolver_ready; rewrite started_fields;
                    repeat split)
              ltac:(rewrite started_fields; constructor)
              ltac:(intro Hap; split;
                    [ unfold single_attempt; rewrite started_fields;
                      repeat split; constructor
                    | rewrite started_fields; constructor ])
              Hnever Hrun) as [Hr [Hall Hno]].
  split; [exact Hall|]. split; [exact Hno|].
  intro Hl. unfold resolver_ready in Hr. rewrite Hl in Hr.
  destruct Hr as [Hd Ht]. split; [exact Hd|].
  intro Hin. rewrite forallb_forall in Ht. apply Ht in Hin. discriminate.
Qed.

(** The device that delivers only empty data: one exception, the missing
    first fragment. *)
Lemma X19_witness :
  exists s,
    run Scenario.defaults Scenario.silent_device = Some s
    /\ uncaught s = [no_first_fragment]
    /\ Forall (fun x => x = no_first_fragment) (uncaught s).
Proof.
  eexists. split; [vm_compute; reflexivity|]. split; [reflexivity|].
  match goal with
  | |- Forall _ (uncaught ?s) =>
      destruct (X19_errors_without_stream_end Scenario.defaults
                  Scenario.silent_device s eq_refl
                  ltac:(vm_compute; reflexivity)) as [_ [Honly _]]
  end.
  exact (Honly eq_refl).
Defined.

(** ** A second click on "record again" *)

(** X20.  The playback view stays on screen until the recorder fires the
    "start" of the new attempt.  A second click on "record again" in that
    time calls [start()] on a recorder that is already recording: it throws
    [InvalidStateError], no second "start" is queued, and the handle that
    was released by the first click is released again.  Neither click
    concludes the trial. *)
Theorem X20_record_again_twice_throws :
  forall cfg s s1 s2,
    microtasks s = [] ->
    step cfg s ClickRecordAgain = Some s1 ->
    step cfg s1 ClickRecordAgain = Some s2 ->
    recorder_state s1 = Recording
    /\ uncaught s2 = uncaught s1 ++ [InvalidStateError]
    /\ recorder_state s2 = Recording
    /\ recorder_tasks s2 = recorder_tasks s1
    /\ revoked s2 = match audio_url s with
                    | Some u => revoked s1 ++ [u]
                    | None => revoked s1
                    end
    /\ display s2 = display s
    /\ finished s2 = finished s.
Proof.
  intros cfg s s1 s2 Hm H1 H2. revert H2.
  destruct s, cfg. read_fields_in Hm. subst.
  enabled H1; exec; read_fields; intro H2.
  all: enabled H2; exec; read_fields; repeat split; reflexivity.
Qed.

Lemma X20_witness :
  exists s s1 s2,
    run Scenario.with_playback Scenario.first_take = Some s
    /\ step Scenario.with_playback s ClickRecordAgain = Some s1
    /\ step Scenario.with_playback s1 ClickRecordAgain = Some s2
    /\ uncaught s2 = [InvalidStateError]
    /\ revoked s2 = [BlobURL 0; BlobURL 0]
    /\ recorder_tasks s2 = [TaskStart]
    /\ finished s2 = finished s.
Proof.
  eexists _, _, _. split; [vm_compute; reflexivity|].
  split; [vm_compute; reflexivity|].
  split; [vm_compute; reflexivity|].
  match goal with
  | |- uncaught ?s2 = _ /\ _ /\ recorder_tasks _ = _ /\ _ = finished ?s =>
      destruct (X20_record_again_twice_throws Scenario.with_playback
                  s _ s2 eq_refl
                  ltac:(vm_compute; reflexivity)
                  ltac:(vm_compute; reflexivity))
        as [_ [Hthrown [_ [Htasks [Hrev [_ Hfin]]]]]]
  end.
  split; [etransitivity; [exact Hthrown | reflexivity]|].
  split; [etransitivity; [exact Hrev | reflexivity]|].
  split; [etransitivity; [exact Htasks | reflexivity]|].
  exact Hfin.
Defined.

(** ** How often the stimulus time is stamped *)

Lemma step_observers cfg s e s' :
  microtasks s = [] -> step cfg s e = Some s' ->
  (observers s' + (if is_resize e then 1 else 0) =
   observers s + (if is_start e then if on_start s then 1 else 0 else 0))%nat.
Proof.
  intros Hm H. destruct s, cfg. read_fields_in Hm. subst.
  destruct e; cbn [is_resize is_start]; enabled H; exec; read_fields; lia.
Qed.

Lemma step_on_start cfg s e s' :
  microtasks s = [] -> step cfg s e = Some s' ->
  (finished s = [] -> on_start s = true) ->
  (finished s' = [] -> on_start s' = true /\ finished s = []).
Proof.
  intros Hm H Hon Hf.
  destruct (step_conclusion cfg s e s' Hm H)
    as [_ [[Hfin [_ [_ [_ [Hs _]]]]] | [c [Hfin _]]]].
  - rewrite Hfin in Hf. rewrite Hs. auto.
  - rewrite Hfin in Hf. now apply app_eq_nil in Hf as [_ Hf].
Qed.

Lemma run_from_observers cfg events : forall s s',
  microtasks s = [] -> (finished s = [] -> on_start s = true) ->
  run_from cfg s events = Some s' ->
  (count is_resize events + observers s' <=
   count is_start events + observers s)%nat
  /\ (finished s' = [] ->
      (count is_resize events + observers s' =
       count is_start events + observers s)%nat).
Proof.
  unfold count.
  induction events as [|e rest IH]; intros s s' Hm Hon H; cbn in H.
  - injection H as <-. cbn. lia.
  - destruct (step cfg s e) as [s1|] eqn:E; [|discriminate].
    destruct (step_outcome cfg s e s1 Hm E) as [Hm1 _].
    pose proof (step_observers cfg s e s1 Hm E) as Hobs.
    pose proof (step_on_start cfg s e s1 Hm E Hon) as Hon1.
    destruct (IH s1 s' Hm1 ltac:(intro Hf; now apply Hon1) H) as [Hle Heq].
    cbn [filter].
    split.
    + destruct (is_resize e), (is_start e), (on_start s);
        cbn [List.length]; lia.
    + intro Hf. specialize (Heq Hf).
      assert (Hf1 : finished s1 = [])
        by (eapply run_from_not_concluded; eauto).
      destruct (Hon1 Hf1) as [_ Hf0]. rewrite (Hon Hf0) in Hobs.
      destruct (is_resize e), (is_start e); cbn [List.length]; lia.
Qed.

(** X21.  Each [showDisplay] makes one observer, and an observer stamps
    [stimulus_start_time] once and unobserves: the stamps so far and the
    observers still waiting never outnumber the "start" events of the
    recorder, and until the trial concludes they add up to exactly that
    number. *)
Theorem X21_stimulus_time_is_stamped_once_per_display :
  forall cfg events s,
    run cfg events = Some s ->
    (count is_resize events + observers s <= count is_start events)%nat
    /\ (finished s = [] ->
        (count is_resize events + observers s = count is_start events)%nat).
Proof.
  intros cfg events s Hrun.
  destruct (run_from_observers cfg events (started cfg) s
              (started_microtasks cfg)
              ltac:(intros _; rewrite started_fields; reflexivity) Hrun)
    as [Hle Heq].
  replace (observers (started cfg)) with 0%nat in *
    by (rewrite started_fields; reflexivity).
  rewrite Nat.add_0_r in *. auto.
Qed.

(** Two attempts, each seen once: two stamps, no observer left waiting. *)
Lemma X21_witness :
  exists s,
    run Scenario.with_playback Scenario.second_take_running = Some s
    /\ observers s = 0%nat
    /\ (count is_resize Scenario.second_take_running + observers s =
        count is_start Scenario.second_take_running)%nat.
Proof.
  eexists. split; [vm_compute; reflexivity|]. split; [reflexivity|].
  match goal with
  | |- (_ + observers ?s = _)%nat =>
      destruct (X21_stimulus_time_is_stamped_once_per_display
                  Scenario.with_playback Scenario.second_take_running s
                  ltac:(vm_compute; reflexivity)) as [_ Heq]
  end.
  exact (Heq eq_refl).
Defined.
